(** * nicegui-otf-api: the storage bridge, the session resolver and the
      page controllers of [storage.py] and [demo.py]

    The development embeds the two source files as functions over an explicit
    program state: the three storage tiers ([app.storage.user],
    [app.storage.tab], the browser's [localStorage]) and the trace of
    effects the handlers perform (storage writes, calls into the external
    [otf_api] client, notifications, navigation).  Exceptions are values of
    an outcome type threaded through a small state-and-error monad. *)

From Stdlib Require Import ZArith NArith String Ascii List Bool Lia.
From stdpp Require Import base option gmap strings list fin_maps.
Import ListNotations.

Local Set Warnings "-register-all".
Local Open Scope string_scope.
Local Open Scope list_scope.

(** ** JSON values and [json.loads]

    [LocalStorage.get_item] hands the text read from the browser to Python's
    [json.loads].  Strings are byte strings (UTF-8); integers are unbounded,
    as Python's are; a number written with a fraction or an exponent, and the
    constants [NaN], [Infinity] and [-Infinity] that [json.loads] accepts,
    are kept as the text of their literal.  The interpreter's limits on
    nesting depth and on the length of an integer literal are left out. *)

Module Json.

Inductive json : Type :=
| JNull
| JBool (b : bool)
| JInt (z : Z)
| JFloat (lit : string)
| JStr (s : string)
| JList (items : list json)
| JDict (pairs : list (string * json)).

Definition code (c : ascii) : N := N_of_ascii c.

Definition chr (n : N) : ascii := ascii_of_N n.

(** [WHITESPACE = re.compile(r'[ \t\n\r]*')] *)
Definition is_ws (c : ascii) : bool :=
  let n := code c in
  ((n =? 32) || (n =? 9) || (n =? 10) || (n =? 13))%N.

Fixpoint skip_ws (s : list ascii) : list ascii :=
  match s with
  | c :: r => if is_ws c then skip_ws r else s
  | [] => []
  end.

Definition is_digit (c : ascii) : bool :=
  let n := code c in ((48 <=? n) && (n <=? 57))%N.

Definition digit_val (c : ascii) : Z := Z.of_N (code c) - 48.

Fixpoint span_digits (s : list ascii) : list ascii * list ascii :=
  match s with
  | c :: r =>
      if is_digit c
      then let '(ds, rest) := span_digits r in (c :: ds, rest)
      else ([], s)
  | [] => ([], [])
  end.

(** [int(text)] on a run of decimal digits. *)
Definition int_of_digits (ds : list ascii) : Z :=
  fold_left (fun acc c => acc * 10 + digit_val c)%Z ds 0%Z.

(** The three groups of [NUMBER_RE]: an integer part (an optional minus
    sign, then a single zero or a digit run that does not start with zero),
    an optional fraction (a dot and at least one digit) and an optional
    exponent (e or E, an optional sign, at least one digit). *)
Definition number_sign (s : list ascii) : bool * list ascii :=
  match s with
  | c :: r => if (code c =? 45)%N then (true, r) else (false, s)
  | [] => (false, [])
  end.

Definition number_int (s : list ascii) : option (list ascii * list ascii) :=
  match s with
  | c :: r =>
      if is_digit c
      then if (code c =? 48)%N then Some ([c], r) else Some (span_digits s)
      else None
  | [] => None
  end.

Definition number_frac (s : list ascii) : list ascii * list ascii :=
  match s with
  | c :: r =>
      if (code c =? 46)%N
      then match span_digits r with
           | ([], _) => ([], s)
           | (ds, rest) => (c :: ds, rest)
           end
      else ([], s)
  | [] => ([], [])
  end.

Definition number_exp (s : list ascii) : list ascii * list ascii :=
  match s with
  | e :: r =>
      if ((code e =? 101) || (code e =? 69))%N
      then
        let '(sgn, r1) :=
          match r with
          | c :: r' =>
              if ((code c =? 45) || (code c =? 43))%N then ([c], r') else ([], r)
          | [] => ([], r)
          end in
        match span_digits r1 with
        | ([], _) => ([], s)
        | (ds, rest) => (e :: sgn ++ ds, rest)
        end
      else ([], s)
  | [] => ([], [])
  end.

Definition match_number (s : list ascii) : option (json * list ascii) :=
  let '(neg, s1) := number_sign s in
  match number_int s1 with
  | None => None
  | Some (ip, s2) =>
      let '(frac, s3) := number_frac s2 in
      let '(exp, s4) := number_exp s3 in
      match frac, exp with
      | [], [] =>
          let n := int_of_digits ip in
          Some (JInt (if neg then - n else n)%Z, s4)
      | _, _ =>
          let sign := if neg then [chr 45] else [] in
          Some (JFloat (string_of_list_ascii (sign ++ ip ++ frac ++ exp)), s4)
      end
  end.

(** Four hexadecimal digits of a [\uXXXX] escape. *)
Definition hex_val (c : ascii) : option N :=
  let n := code c in
  if ((48 <=? n) && (n <=? 57))%N then Some (n - 48)%N
  else if ((97 <=? n) && (n <=? 102))%N then Some (n - 87)%N
  else if ((65 <=? n) && (n <=? 70))%N then Some (n - 55)%N
  else None.

Definition decode_uXXXX (a b c d : ascii) : option N :=
  match hex_val a, hex_val b, hex_val c, hex_val d with
  | Some x, Some y, Some z, Some w => Some (((x * 16 + y) * 16 + z) * 16 + w)%N
  | _, _, _, _ => None
  end.

(** The bytes of [chr(n)]: UTF-8, with a lone surrogate written in the same
    three-byte form. *)
Definition utf8 (n : N) : list ascii :=
  if (n <? 128)%N then [chr n]
  else if (n <? 2048)%N then
    [chr (192 + n / 64); chr (128 + n mod 64)]
  else if (n <? 65536)%N then
    [chr (224 + n / 4096); chr (128 + (n / 64) mod 64); chr (128 + n mod 64)]
  else
    [chr (240 + n / 262144); chr (128 + (n / 4096) mod 64);
     chr (128 + (n / 64) mod 64); chr (128 + n mod 64)].

(** [BACKSLASH]: the one-character escapes. *)
Definition backslash (c : ascii) : option ascii :=
  let n := code c in
  if (n =? 34)%N then Some (chr 34)
  else if (n =? 92)%N then Some (chr 92)
  else if (n =? 47)%N then Some (chr 47)
  else if (n =? 98)%N then Some (chr 8)
  else if (n =? 102)%N then Some (chr 12)
  else if (n =? 110)%N then Some (chr 10)
  else if (n =? 114)%N then Some (chr 13)
  else if (n =? 116)%N then Some (chr 9)
  else None.

Definition is_high_surrogate (n : N) : bool := ((55296 <=? n) && (n <=? 56319))%N.
Definition is_low_surrogate (n : N) : bool := ((56320 <=? n) && (n <=? 57343))%N.

(** A low surrogate escape directly after a high one. *)
Definition low_surrogate_ahead (s : list ascii) : option (N * list ascii) :=
  match s with
  | b :: u :: h1 :: h2 :: h3 :: h4 :: rest =>
      if ((code b =? 92) && (code u =? 117))%N
      then match decode_uXXXX h1 h2 h3 h4 with
           | Some n2 => if is_low_surrogate n2 then Some (n2, rest) else None
           | None => None
           end
      else None
  | _ => None
  end.

(** [scanstring] in strict mode, started after the opening quote; [acc] holds
    the decoded bytes so far, last first. *)
Fixpoint scanstring (s : list ascii) (acc : list ascii) : option (string * list ascii) :=
  match s with
  | [] => None
  | c :: r =>
      if (code c =? 34)%N then Some (string_of_list_ascii (rev acc), r)
      else if (code c <? 32)%N then None
      else if (code c =? 92)%N then
        match r with
        | [] => None
        | e :: r1 =>
            if (code e =? 117)%N then
              match r1 with
              | h1 :: h2 :: h3 :: h4 :: r2 =>
                  match decode_uXXXX h1 h2 h3 h4 with
                  | None => None
                  | Some uni =>
                      match r2 with
                      | b :: u :: g1 :: g2 :: g3 :: g4 :: r3 =>
                          match
                            (if is_high_surrogate uni
                             then low_surrogate_ahead (b :: u :: g1 :: g2 :: g3 :: g4 :: r3)
                             else None)
                          with
                          | Some (uni2, _) =>
                              let joined :=
                                (65536 + ((uni - 55296) * 1024 + (uni2 - 56320)))%N in
                              scanstring r3 (rev (utf8 joined) ++ acc)
                          | None => scanstring r2 (rev (utf8 uni) ++ acc)
                          end
                      | _ => scanstring r2 (rev (utf8 uni) ++ acc)
                      end
                  end
              | _ => None
              end
            else
              match backslash e with
              | Some ch => scanstring r1 (ch :: acc)
              | None => None
              end
        end
      else scanstring r (c :: acc)
  end.

Fixpoint starts_with (p s : list ascii) : option (list ascii) :=
  match p, s with
  | [], _ => Some s
  | a :: p', b :: s' => if Ascii.eqb a b then starts_with p' s' else None
  | _ :: _, [] => None
  end.

(** [dict(pairs)]: a repeated key keeps its first position and takes the last
    value. *)
Fixpoint dict_set (k : string) (v : json) (d : list (string * json)) : list (string * json) :=
  match d with
  | [] => [(k, v)]
  | (k', v') :: d' =>
      if String.eqb k k' then (k, v) :: d' else (k', v') :: dict_set k v d'
  end.

Definition scan_constant (s : list ascii) : option (json * list ascii) :=
  match starts_with (list_ascii_of_string "NaN") s with
  | Some r => Some (JFloat "NaN", r)
  | None =>
  match starts_with (list_ascii_of_string "Infinity") s with
  | Some r => Some (JFloat "Infinity", r)
  | None =>
  match starts_with (list_ascii_of_string "-Infinity") s with
  | Some r => Some (JFloat "-Infinity", r)
  | None => None
  end end end.

Definition scan_atom (s : list ascii) : option (json * list ascii) :=
  match starts_with (list_ascii_of_string "null") s with
  | Some r => Some (JNull, r)
  | None =>
  match starts_with (list_ascii_of_string "true") s with
  | Some r => Some (JBool true, r)
  | None =>
  match starts_with (list_ascii_of_string "false") s with
  | Some r => Some (JBool false, r)
  | None =>
  match match_number s with
  | Some x => Some x
  | None => scan_constant s
  end end end end.

(** [scan_once], [JSONArray] and [JSONObject].  Every call passes on less
    fuel; each consumes at least one character, so [2 * len + 2] is enough
    for an input of [len] characters ([json_loads_fuel] below). *)
Fixpoint scan_once (fuel : nat) (s : list ascii) : option (json * list ascii) :=
  match fuel with
  | O => None
  | S fuel' =>
      match s with
      | [] => None
      | c :: r =>
          if (code c =? 34)%N then
            match scanstring r [] with
            | Some (str, r') => Some (JStr str, r')
            | None => None
            end
          else if (code c =? 123)%N then
            match skip_ws r with
            | c1 :: r2 =>
                if (code c1 =? 125)%N then Some (JDict [], r2)
                else if (code c1 =? 34)%N then object_items fuel' [] r2
                else None
            | [] => None
            end
          else if (code c =? 91)%N then
            match skip_ws r with
            | c1 :: r2 =>
                if (code c1 =? 93)%N then Some (JList [], r2)
                else array_items fuel' [] (c1 :: r2)
            | [] => None
            end
          else scan_atom s
      end
  end
with array_items (fuel : nat) (acc : list json) (s : list ascii) : option (json * list ascii) :=
  match fuel with
  | O => None
  | S fuel' =>
      match scan_once fuel' s with
      | None => None
      | Some (v, r) =>
          match skip_ws r with
          | c :: r2 =>
              if (code c =? 93)%N then Some (JList (acc ++ [v]), r2)
              else if (code c =? 44)%N then array_items fuel' (acc ++ [v]) (skip_ws r2)
              else None
          | [] => None
          end
      end
  end
with object_items (fuel : nat) (acc : list (string * json)) (s : list ascii) : option (json * list ascii) :=
  match fuel with
  | O => None
  | S fuel' =>
      match scanstring s [] with
      | None => None
      | Some (key, r) =>
          match skip_ws r with
          | c :: r2 =>
              if (code c =? 58)%N then
                match scan_once fuel' (skip_ws r2) with
                | None => None
                | Some (v, r3) =>
                    match skip_ws r3 with
                    | c2 :: r5 =>
                        if (code c2 =? 125)%N then Some (JDict (dict_set key v acc), r5)
                        else if (code c2 =? 44)%N then
                          match skip_ws r5 with
                          | c3 :: r6 =>
                              if (code c3 =? 34)%N
                              then object_items fuel' (dict_set key v acc) r6
                              else None
                          | [] => None
                          end
                        else None
                    | [] => None
                    end
                end
              else None
          | [] => None
          end
      end
  end.

(** [json.loads(s)] for a [str]: [None] stands for [JSONDecodeError].  The
    interpreter has two limits the parser below has not: an integer literal
    of more than 4300 digits raises [ValueError], and brackets nested past
    the recursion limit raise [RecursionError].  The embedding is that of
    [json.loads] on the texts inside both limits ([within_json_limits]
    below). *)
Definition json_loads (s : string) : option json :=
  let l := list_ascii_of_string s in
  match scan_once (2 * List.length l + 2) (skip_ws l) with
  | Some (v, rest) =>
      match skip_ws rest with
      | [] => Some v
      | _ :: _ => None
      end
  | None => None
  end.

End Json.

Export Json.

(** The parsers give the same result on [s] for any two amounts of fuel at
    or above twice its length plus one (plus two for the item loops). *)
Definition fuel_stable (s : list ascii) : Prop :=
  (∀ f1 f2, (2 * List.length s + 1 ≤ f1)%nat → (2 * List.length s + 1 ≤ f2)%nat →
     scan_once f1 s = scan_once f2 s)
  ∧ (∀ f1 f2 acc, (2 * List.length s + 2 ≤ f1)%nat → (2 * List.length s + 2 ≤ f2)%nat →
       array_items f1 acc s = array_items f2 acc s)
  ∧ (∀ f1 f2 acc, (2 * List.length s + 2 ≤ f1)%nat → (2 * List.length s + 2 ≤ f2)%nat →
       object_items f1 acc s = object_items f2 acc s).


(** ** Decimal text of an integer

    What [str(n)] gives in Python and, for the integers a double holds
    exactly, what [String(n)] gives in the browser. *)

Definition digit_char (n : N) : ascii := chr (48 + n).

Fixpoint N_digits (fuel : nat) (n : N) (acc : list ascii) : list ascii :=
  let acc' := digit_char (n mod 10) :: acc in
  match fuel with
  | O => acc'
  | S fuel' => if (n <? 10)%N then acc' else N_digits fuel' (n / 10) acc'
  end.

Definition N_to_digits (n : N) : list ascii := N_digits (N.to_nat (N.size n)) n [].

Definition Z_to_digits (z : Z) : list ascii :=
  if (z <? 0)%Z then chr 45 :: N_to_digits (Z.abs_N z) else N_to_digits (Z.abs_N z).

Definition Z_to_string (z : Z) : string := string_of_list_ascii (Z_to_digits z).

(** ** Values

    The objects of the external [otf_api] library are records of the
    attributes and method results this program reads from them. *)

Record OtfUser : Type := {
  get_tokens : json;          (* user.get_tokens() *)
  device_key : json;          (* user.device_key *)
}.

Record Otf : Type := {
  otf_user : OtfUser;         (* otf.user *)
  get_hydration_dict : json;  (* otf.get_hydration_dict() *)
}.

(** A value held in [app.storage.user] or [app.storage.tab]. *)
Inductive pyval : Type :=
| PJson (j : json)
| PUser (u : OtfUser)
| POtf (o : Otf).

Definition PNone : pyval := PJson JNull.
Definition PBool (b : bool) : pyval := PJson (JBool b).
Definition PStr (s : string) : pyval := PJson (JStr s).

(** Python truth value, as [not x] and [if x] use it.  A float literal is
    false when its mantissa has no digit other than zero (a literal that
    underflows to zero is not told apart). *)
Definition float_is_zero (lit : string) : bool :=
  let fix mantissa (s : list ascii) : bool :=
    match s with
    | [] => true
    | c :: r =>
        if ((code c =? 101) || (code c =? 69))%N then true
        else if is_digit c && negb (code c =? 48)%N then false
        else mantissa r
    end in
  match list_ascii_of_string lit with
  | [] => true
  | c :: r =>
      if is_digit c || (code c =? 45)%N && negb (String.eqb lit "-Infinity")
      then mantissa (c :: r) else false
  end.

Definition truthy (v : pyval) : bool :=
  match v with
  | PJson JNull => false
  | PJson (JBool b) => b
  | PJson (JInt z) => negb (z =? 0)%Z
  | PJson (JFloat lit) => negb (float_is_zero lit)
  | PJson (JStr s) => negb (String.eqb s "")
  | PJson (JList l) => match l with [] => false | _ :: _ => true end
  | PJson (JDict d) => match d with [] => false | _ :: _ => true end
  | PUser _ => true
  | POtf _ => true
  end.

(** *** The records the two listing pages read

    [strftime] interprets the directives the pages use: the year on four
    digits, and month, day, hour and minute on two.  It is the text of the
    C library for the years from 1000 to 9999; below 1000 the padding of the
    year depends on the platform. *)

Record datetime : Type := {
  year : Z; month : Z; day : Z; hour : Z; minute : Z;
}.

Definition zero_pad (width : nat) (n : Z) : list ascii :=
  let ds := Z_to_digits n in
  repeat (chr 48) (width - List.length ds) ++ ds.

Definition strftime_directive (d : datetime) (c : ascii) : list ascii :=
  if (code c =? 89)%N then zero_pad 4 (year d)             (* %Y *)
  else if (code c =? 109)%N then zero_pad 2 (month d)      (* %m *)
  else if (code c =? 100)%N then zero_pad 2 (day d)        (* %d *)
  else if (code c =? 72)%N then zero_pad 2 (hour d)        (* %H *)
  else if (code c =? 77)%N then zero_pad 2 (minute d)      (* %M *)
  else [chr 37; c].

Fixpoint strftime_chars (d : datetime) (fmt : list ascii) : list ascii :=
  match fmt with
  | [] => []
  | p :: rest =>
      if (code p =? 37)%N
      then match rest with
           | c :: rest' => strftime_directive d c ++ strftime_chars d rest'
           | [] => [p]
           end
      else p :: strftime_chars d rest
  end.

Definition strftime (d : datetime) (fmt : string) : string :=
  string_of_list_ascii (strftime_chars d (list_ascii_of_string fmt)).

(** An element of [classes.classes]; an attribute path of the source such
    as [class_.coach.first_name] is one field. *)
Record OtfClass : Type := {
  day_of_week : json;
  starts_at_local : datetime;
  duration : json;
  name : json;
  coach_first_name : json;      (* class_.coach.first_name *)
  studio_name : json;           (* class_.studio.name *)
  class_type_name : json;       (* class_.class_type.name *)
  is_booked : bool;
  waitlist_available : bool;
  is_home_studio : bool;
}.

(** An element of [bookings.bookings]. *)
Record Booking : Type := {
  otf_class_name : json;                 (* booking.otf_class.name *)
  otf_class_starts_at_local : datetime;  (* booking.otf_class.starts_at_local *)
  otf_class_duration : json;             (* booking.otf_class.duration *)
  otf_class_coach_name : json;           (* booking.otf_class.coach.name *)
  status_value : json;                   (* booking.status.value *)
  class_booking_uuid : json;
}.

(** ** Exceptions, effects and the program state *)

Inductive exn : Type :=
| TokenVerificationException
| KeyError (key : string)
| TypeError (msg : string)
| AssertionError
| AttributeError (attr : string)
| OtherException (class_name : string).

Definition is_TokenVerificationException (e : exn) : bool :=
  match e with TokenVerificationException => true | _ => false end.

Definition is_KeyError (e : exn) : bool :=
  match e with KeyError _ => true | _ => false end.

Inductive outcome (A : Type) : Type :=
| Return (a : A)
| Raise (e : exn).
Arguments Return {A} a.
Arguments Raise {A} e.

(** What a handler does that is visible outside it, in program order. *)
Inductive event : Type :=
| UserWrite (key : string)      (* app.storage.user[key] = ... *)
| UserClear                     (* app.storage.user.clear() *)
| TabWrite (key : string)       (* app.storage.tab[key] = ... *)
| TabClear                      (* app.storage.tab.clear() *)
| LocalWrite (key : string)     (* run_javascript: localStorage.setItem *)
| LocalClear                    (* run_javascript: localStorage.clear() *)
| ExternalCall (callee : string)  (* a call into otf_api *)
| Notify (message color : string)
| Navigate (target : pyval).    (* ui.navigate.to(target) *)

Record state : Type := State {
  user_storage : gmap string pyval;     (* app.storage.user *)
  tab_storage : gmap string pyval;      (* app.storage.tab *)
  local_storage : gmap string string;   (* the browser's localStorage *)
  trace : list event;
}.

(** The external collaborators: the [otf_api] client and the browser's
    conversion of a number to text. *)
Record Externals : Type := {
  OtfUser_login : string -> string -> outcome OtfUser;
  OtfUser_from_token : pyval -> json -> outcome OtfUser;
  Otf_hydrate : pyval -> pyval -> outcome Otf;
  Otf_create : pyval -> outcome Otf;
  Otf_get_classes : Otf -> outcome (list OtfClass);
  Otf_get_bookings : Otf -> outcome (list Booking);
  Number_toString : json -> string;
}.

(** *** The state-and-exception monad *)

Definition M (A : Type) : Type := state -> state * outcome A.

Definition ret {A} (a : A) : M A := fun s => (s, Return a).

Definition raise {A} (e : exn) : M A := fun s => (s, Raise e).

Definition bind {A B} (m : M A) (k : A -> M B) : M B :=
  fun s =>
    match m s with
    | (s', Return a) => k a s'
    | (s', Raise e) => (s', Raise e)
    end.

Notation "x <- m ;; k" := (bind m (fun x => k))
  (at level 100, m at next level, right associativity).
Notation "m ;; k" := (bind m (fun _ => k))
  (at level 100, right associativity).

(** [try: body except ...: handler]: [handlers e] is the first clause that
    matches [e], if any. *)
Definition try_except {A} (body : M A) (handlers : exn -> option (M A)) : M A :=
  fun s =>
    match body s with
    | (s', Return a) => (s', Return a)
    | (s', Raise e) =>
        match handlers e with
        | Some handler => handler s'
        | None => (s', Raise e)
        end
    end.

Definition get_state : M state := fun s => (s, Return s).

Definition emit (ev : event) : M unit :=
  fun s =>
    (State (user_storage s) (tab_storage s) (local_storage s) (trace s ++ [ev]),
     Return tt).

(** [await x] for an [x] that is [None]: the operand has been evaluated, the
    [await] itself raises. *)
Definition await_None : M unit :=
  raise (TypeError "object NoneType can't be used in 'await' expression").

(** A call into the external library, with the result it gives. *)
Definition call {A} (callee : string) (result : outcome A) : M A :=
  emit (ExternalCall callee) ;; (fun s => (s, result)).

(** *** [app.storage.user] *)

Definition user_get (key : string) (dflt : pyval) : M pyval :=
  fun s => (s, Return (default dflt (user_storage s !! key))).

Definition user_getitem (key : string) : M pyval :=
  fun s =>
    match user_storage s !! key with
    | Some v => (s, Return v)
    | None => (s, Raise (KeyError key))
    end.

Definition user_setitem (key : string) (v : pyval) : M unit :=
  fun s =>
    (State (<[key := v]> (user_storage s)) (tab_storage s) (local_storage s)
           (trace s ++ [UserWrite key]),
     Return tt).

(** [app.storage.user.update({...})]: the keys are set in the order of the
    dict literal. *)
Fixpoint user_update (items : list (string * pyval)) : M unit :=
  match items with
  | [] => ret tt
  | (k, v) :: rest => user_setitem k v ;; user_update rest
  end.

Definition user_clear : M unit :=
  fun s =>
    (State ∅ (tab_storage s) (local_storage s) (trace s ++ [UserClear]), Return tt).

(** *** [app.storage.tab] *)

Definition tab_getitem (key : string) : M pyval :=
  fun s =>
    match tab_storage s !! key with
    | Some v => (s, Return v)
    | None => (s, Raise (KeyError key))
    end.

Definition tab_setitem (key : string) (v : pyval) : M unit :=
  fun s =>
    (State (user_storage s) (<[key := v]> (tab_storage s)) (local_storage s)
           (trace s ++ [TabWrite key]),
     Return tt).

Definition tab_clear : M unit :=
  fun s =>
    (State (user_storage s) ∅ (local_storage s) (trace s ++ [TabClear]), Return tt).

(** *** [ui.notify] and [ui.navigate.to] *)

Definition notify (message color : string) : M unit := emit (Notify message color).

Definition navigate_to (target : pyval) : M unit := emit (Navigate target).

(** ** storage.py *)

(** The text the browser stores for [localStorage.setItem(key, value)]: the
    string conversion of the JavaScript value that the literal
    [json.dumps(value)] denotes.  An object is converted by the [toString]
    it inherits: the text below is that of the objects with no key
    [toString] and no key [__proto__] of their own. *)
Section BrowserText.
Variable ext : Externals.

Fixpoint js_to_string (v : json) : string :=
  match v with
  | JNull => "null"
  | JBool true => "true"
  | JBool false => "false"
  | JInt _ | JFloat _ => Number_toString ext v
  | JStr s => s
  | JList items =>
      String.concat ","
        (map (fun x => match x with JNull => "" | _ => js_to_string x end) items)
  | JDict _ => "[object Object]"
  end.
End BrowserText.

Module LocalStorage.
Section WithExternals.
Variable ext : Externals.

(** [ui.run_javascript('localStorage.setItem("key", <json.dumps(value)>)')].
    The key is pasted between the quotes as it is: the embedding is that of
    the keys that need no escaping there ([plain_key] below), and of the
    values [json.dumps] has a text for. *)
Definition set_item (key : string) (value : json) : M unit :=
  fun s =>
    (State (user_storage s) (tab_storage s)
           (<[key := js_to_string ext value]> (local_storage s))
           (trace s ++ [LocalWrite key]),
     Return tt).

(** [val = await ui.run_javascript('localStorage.getItem("key")')], then
    [json.loads(val)], falling back to [val] on [JSONDecodeError] and on the
    [TypeError] that [json.loads(None)] raises for an absent key.  The
    browser is taken to answer the request, which it does for the keys that
    need no escaping between the quotes ([plain_key] below); the stored text
    is taken inside the limits of [json.loads] ([within_json_limits]), past
    which the source raises an exception its handler does not catch. *)
Definition get_item (key : string) : M json :=
  fun s =>
    match local_storage s !! key with
    | Some val =>
        match json_loads val with
        | Some decoded => (s, Return decoded)
        | None => (s, Return (JStr val))
        end
    | None => (s, Return JNull)
    end.

Definition get_all_items : M (gmap string string) :=
  fun s => (s, Return (local_storage s)).

Definition clear : M unit :=
  fun s =>
    (State (user_storage s) (tab_storage s) ∅ (trace s ++ [LocalClear]), Return tt).
End WithExternals.
End LocalStorage.

Section Program.
Variable ext : Externals.

Definition add_user_to_storage (user : OtfUser) : M unit :=
  user_setitem "tokens" (PJson (get_tokens user)) ;;
  LocalStorage.set_item ext "device_key" (device_key user) ;;
  tab_setitem "user" (PUser user).

Definition add_otf_to_storage (otf : Otf) : M unit :=
  tab_setitem "otf" (POtf otf) ;;
  LocalStorage.set_item ext "device_key" (device_key (otf_user otf)) ;;
  user_setitem "otf_hydration_dict" (PJson (get_hydration_dict otf)).

Definition clear_all_storage : M unit :=
  user_clear ;;
  tab_clear ;;
  LocalStorage.clear.

(** ** demo.py

    The client is taken to be connected, so that each
    [await ui.context.client.connected()] returns. *)

Definition logout : M unit :=
  clear_all_storage ;;
  navigate_to (PStr "/login").

(** [get_user]: [logout] is a plain function, so [await logout()] runs it
    and then raises on its [None]. *)
Definition get_user : M pyval :=
  s <- get_state ;;
  match tab_storage s !! "user" with
  | Some _ => tab_getitem "user"
  | None =>
      try_except
        (device_key <- LocalStorage.get_item "device_key" ;;
         tokens <- user_getitem "tokens" ;;
         user <- call "OtfUser.from_token" (OtfUser_from_token ext tokens device_key) ;;
         tab_setitem "user" (PUser user) ;;
         tab_getitem "user")
        (fun e =>
           if is_TokenVerificationException e || is_KeyError e
           then Some (notify "Your token has expired, please log in again" "negative" ;;
                      logout ;;
                      await_None ;;
                      ret PNone)
           else None)
  end.

Definition get_otf : M pyval :=
  s <- get_state ;;
  match tab_storage s !! "otf" with
  | Some _ => tab_getitem "otf"
  | None =>
      if bool_decide (is_Some (user_storage s !! "otf_hydration_dict"))
         && bool_decide (is_Some (tab_storage s !! "device_key"))
      then
        blob <- user_getitem "otf_hydration_dict" ;;
        device_key <- tab_getitem "device_key" ;;
        otf <- call "Otf.hydrate" (Otf_hydrate ext blob device_key) ;;
        add_otf_to_storage otf ;;
        ret (POtf otf)
      else
        user <- get_user ;;
        if truthy user
        then
          otf <- call "Otf.create" (Otf_create ext user) ;;
          add_otf_to_storage otf ;;
          ret (POtf otf)
        else
          navigate_to (PStr "/login") ;;
          ret PNone
  end.

(** The footer button of [header_and_card]: [on_click=logout]. *)
Definition header_logout_click : M unit := logout.

(** The button of [main_page]:
    [on_click=lambda: (app.storage.user.clear(), ui.navigate.to("/login"))]. *)
Definition main_page_logout_click : M unit :=
  user_clear ;;
  navigate_to (PStr "/login").

(** [main_page] reads the user name for its greeting and offers both
    buttons. *)
Definition main_page : M pyval := user_getitem "username".

(** [try_login], the handler of the login form; [username] and [password]
    are the values of the two inputs.  [add_user_to_storage] is a plain
    function, so [await add_user_to_storage(user)] runs it and then raises
    on its [None].  [try_login_body] is the [try] block. *)
Definition try_login_body (username password : string) : M unit :=
  authenticated <- user_get "authenticated" PNone ;;
  if negb (truthy authenticated)
  then
    user <- call "OtfUser.login" (OtfUser_login ext username password) ;;
    user_update [("username", PStr username); ("authenticated", PBool true)] ;;
    add_user_to_storage user ;;
    await_None ;;
    target <- user_get "referrer_path" (PStr "/upcoming_classes") ;;
    navigate_to target
  else ret tt.

Definition try_login (username password : string) : M unit :=
  try_except
    (try_login_body username password)
    (fun e =>
       if is_TokenVerificationException e
       then Some (notify "Your token has expired, please log in again" "negative" ;;
                  user_setitem "authenticated" (PBool false))
       else Some (notify "Wrong username or password" "negative")).

(** [login]: the page answers with a redirect when the user is already
    authenticated and with the form otherwise. *)
Definition login : M (option string) :=
  authenticated <- user_get "authenticated" (PBool false) ;;
  if truthy authenticated then ret (Some "/upcoming_classes") else ret None.

(** *** The listing pages *)

Definition upcoming_classes_row (booking : Booking) : list (string * json) :=
  [("class_name", otf_class_name booking);
   ("start_date", JStr (strftime (otf_class_starts_at_local booking) "%Y-%m-%d"));
   ("start_time", JStr (strftime (otf_class_starts_at_local booking) "%H:%M"));
   ("duration", otf_class_duration booking);
   ("coach_name", otf_class_coach_name booking);
   ("status", status_value booking);
   ("id", class_booking_uuid booking)].

(** [rows = []], then one [rows.append] for each booking. *)
Definition upcoming_classes_rows (bookings : list Booking) : list (list (string * json)) :=
  fold_left (fun rows booking => rows ++ [upcoming_classes_row booking]) bookings [].

(** With no session, [otf.get_bookings] is an attribute of [None]. *)
Definition upcoming_classes : M (list (list (string * json))) :=
  otf <- get_otf ;;
  match otf with
  | POtf o =>
      bookings <- call "Otf.get_bookings" (Otf_get_bookings ext o) ;;
      ret (upcoming_classes_rows bookings)
  | _ => raise (AttributeError "get_bookings")
  end.

Definition classes_row (class_ : OtfClass) : list (string * json) :=
  [("Day Of Week", day_of_week class_);
   ("Start Date", JStr (strftime (starts_at_local class_) "%Y-%m-%d"));
   ("Start Time", JStr (strftime (starts_at_local class_) "%H:%M"));
   ("Duration", duration class_);
   ("Class Name", name class_);
   ("Coach Name", coach_first_name class_);
   ("Studio Name", studio_name class_);
   ("Class Type", class_type_name class_);
   ("Is Booked", JBool (is_booked class_));
   ("Waitlist Available", JBool (waitlist_available class_));
   ("Home Studio", JBool (is_home_studio class_))].

(** [rows = []], then one [rows.append] for each class. *)
Definition classes_rows (classes : list OtfClass) : list (list (string * json)) :=
  fold_left (fun rows class_ => rows ++ [classes_row class_]) classes [].

(** The ["field"] entries of the grid's [columnDefs], in their order. *)
Definition classes_column_fields : list string :=
  ["Day Of Week"; "Start Date"; "Start Time"; "Duration"; "Class Name";
   "Coach Name"; "Studio Name"; "Class Type"; "Is Booked";
   "Waitlist Available"; "Home Studio"].

Definition classes : M (list (list (string * json))) :=
  otf <- get_otf ;;
  match otf with
  | POtf o =>
      classes <- call "Otf.get_classes" (Otf_get_classes ext o) ;;
      ret (classes_rows classes)
  | _ => raise AssertionError
  end.

End Program.

(** ** Reading a trace *)

(** The route the client was last sent to. *)
Fixpoint active_route (tr : list event) : option pyval :=
  match tr with
  | [] => None
  | ev :: rest =>
      match active_route rest with
      | Some target => Some target
      | None => match ev with Navigate target => Some target | _ => None end
      end
  end.

Definition is_call (callee : string) (ev : event) : bool :=
  match ev with ExternalCall c => String.eqb c callee | _ => false end.

Definition is_notify (ev : event) : bool :=
  match ev with Notify _ _ => true | _ => false end.

Definition is_navigate (ev : event) : bool :=
  match ev with Navigate _ => true | _ => false end.

(** How often the external function [callee] was called. *)
Definition count_calls (callee : string) (tr : list event) : nat :=
  List.length (List.filter (is_call callee) tr).

Definition notifications (tr : list event) : list event := List.filter is_notify tr.

Definition navigations (tr : list event) : list event := List.filter is_navigate tr.

(** ** What a client can do

    The pages it can visit, the buttons it can click, and every function of
    the two files called on its own. *)

(** Modelled from the spec: [middleware.py] is not among the sources.  The
    spec lists [referrer_path] among the keys of the user tier and has the
    login page navigate to a stored referrer path, so the middleware is taken
    to store the requested path under that key. *)
Definition store_referrer_path (path : string) : M unit :=
  user_setitem "referrer_path" (PStr path).

Inductive action : Type :=
| MiddlewareRedirect (path : string)
| VisitMainPage
| VisitLogin
| VisitClasses
| VisitUpcomingClasses
| ClickHeaderLogout
| ClickMainPageLogout
| ClickLogIn (username password : string)
| CallGetOtf
| CallGetUser
| CallLogout
| CallAddUserToStorage (user : OtfUser)
| CallAddOtfToStorage (otf : Otf)
| CallClearAllStorage
| CallSetItem (key : string) (value : json)
| CallGetItem (key : string)
| CallGetAllItems
| CallClear.

Definition run (ext : Externals) (a : action) (s : state) : state :=
  match a with
  | MiddlewareRedirect path => (store_referrer_path path s).1
  | VisitMainPage => (main_page s).1
  | VisitLogin => (login s).1
  | VisitClasses => (classes ext s).1
  | VisitUpcomingClasses => (upcoming_classes ext s).1
  | ClickHeaderLogout => (header_logout_click s).1
  | ClickMainPageLogout => (main_page_logout_click s).1
  | ClickLogIn username password => (try_login ext username password s).1
  | CallGetOtf => (get_otf ext s).1
  | CallGetUser => (get_user ext s).1
  | CallLogout => (logout s).1
  | CallAddUserToStorage user => (add_user_to_storage ext user s).1
  | CallAddOtfToStorage otf => (add_otf_to_storage ext otf s).1
  | CallClearAllStorage => (clear_all_storage s).1
  | CallSetItem key value => (LocalStorage.set_item ext key value s).1
  | CallGetItem key => (LocalStorage.get_item key s).1
  | CallGetAllItems => (LocalStorage.get_all_items s).1
  | CallClear => (LocalStorage.clear s).1
  end.

(** A tab opens with an empty tab tier; the user tier and the browser's
    storage hold whatever earlier tabs left there. *)
Definition fresh_tab (s : state) : Prop :=
  tab_storage s = ∅ ∧ trace s = [].

Inductive reachable : state -> Prop :=
| reachable_fresh (s : state) : fresh_tab s -> reachable s
| reachable_step (ext : Externals) (a : action) (s : state) :
    reachable s -> reachable (run ext a s).

(** ** Sample collaborators and states *)

Module Samples.

Definition alice : OtfUser :=
  {| get_tokens :=
       JDict [("access_token", JStr "access-1"); ("id_token", JStr "id-1");
              ("refresh_token", JStr "refresh-1")];
     device_key := JStr "device-1" |}.

Definition session (user : OtfUser) : Otf :=
  {| otf_user := user;
     get_hydration_dict := JDict [("tokens", get_tokens user)] |}.

(** A service that accepts alice with the password correct, finds every
    stored token expired, and rebuilds or creates a session from whatever
    it is given. *)
Definition ext : Externals :=
  {| OtfUser_login username password :=
       if String.eqb username "alice" && String.eqb password "correct"
       then Return alice
       else Raise (OtherException "NotAuthorizedException");
     OtfUser_from_token tokens device_key := Raise TokenVerificationException;
     Otf_hydrate blob device_key := Return (session alice);
     Otf_create user :=
       match user with
       | PUser u => Return (session u)
       | _ => Raise (AttributeError "cognito")
       end;
     Otf_get_classes otf := Return [];
     Otf_get_bookings otf := Return [];
     Number_toString v :=
       match v with
       | JInt z => Z_to_string z
       | JFloat lit => lit
       | _ => ""
       end |}.

(** The same service while the stored tokens are still valid. *)
Definition ext_valid_tokens : Externals :=
  {| OtfUser_login := OtfUser_login ext;
     OtfUser_from_token tokens device_key :=
       Return {| get_tokens := get_tokens alice; device_key := device_key |};
     Otf_hydrate := Otf_hydrate ext;
     Otf_create := Otf_create ext;
     Otf_get_classes := Otf_get_classes ext;
     Otf_get_bookings := Otf_get_bookings ext;
     Number_toString := Number_toString ext |}.

Definition empty : state := State ∅ ∅ ∅ [].

(** A new tab of a browser that lost its storage, for a user whose tokens
    are still in the user tier. *)
Definition tokens_only : state :=
  State (<["tokens" := PJson (get_tokens alice)]>
           (<["authenticated" := PBool true]> (<["username" := PStr "alice"]> ∅)))
        ∅ ∅ [].

(** A user the middleware sent to the login page, before any login. *)
Definition referred : state :=
  State (<["referrer_path" := PStr "/classes"]> ∅) ∅ ∅ [].

Definition monday_class : OtfClass :=
  {| day_of_week := JStr "Monday";
     starts_at_local := {| year := 2024; month := 3; day := 4; hour := 6; minute := 5 |};
     duration := JInt 60;
     name := JStr "Orange 60";
     coach_first_name := JStr "Sam";
     studio_name := JStr "Downtown";
     class_type_name := JStr "ORANGE_60";
     is_booked := true;
     waitlist_available := false;
     is_home_studio := true |}.

(** A tab with a live session, as a login followed by a page visit leaves
    it. *)
Definition logged_in : state :=
  State
    (<["otf_hydration_dict" := PJson (get_hydration_dict (session alice))]>
       (<["tokens" := PJson (get_tokens alice)]>
          (<["authenticated" := PBool true]> (<["username" := PStr "alice"]> ∅))))
    (<["otf" := POtf (session alice)]> (<["user" := PUser alice]> ∅))
    (<["device_key" := "device-1"]> ∅)
    [].

End Samples.

(** ** The tab tier and the device identifier

    An event is [allowed] when it is neither a write of ["device_key"] to the
    tab tier nor a call of [Otf.hydrate]. *)

Definition allowed (ev : event) : Prop :=
  ev ≠ TabWrite "device_key" ∧ ev ≠ ExternalCall "Otf.hydrate".

Definition no_tab_device_key (s : state) : Prop :=
  tab_storage s !! "device_key" = None ∧ Forall allowed (trace s).

Definition preserves {A} (m : M A) : Prop :=
  ∀ s, no_tab_device_key s → no_tab_device_key (m s).1.

(** [row[key]] for a row of a grid. *)
Fixpoint dict_get (key : string) (d : list (string * json)) : option json :=
  match d with
  | [] => None
  | (k, v) :: d' => if String.eqb key k then Some v else dict_get key d'
  end.

(** ** Writing to the browser and reading back *)

(** The integers a JavaScript number holds exactly
    ([Number.MAX_SAFE_INTEGER] and below). *)
Definition safe_integer (z : Z) : Prop := (- (2 ^ 53 - 1) ≤ z ≤ 2 ^ 53 - 1)%Z.

(** The browser writes such an integer with its decimal digits. *)
Definition prints_safe_integers (ext : Externals) : Prop :=
  ∀ z, safe_integer z → Number_toString ext (JInt z) = Z_to_string z.

(** A key that stands for itself between the quotes of
    [f'localStorage.getItem("{key}")'] and of the text of [setItem]:
    printable ASCII characters other than the quote and the backslash. *)
Definition plain_key_char (c : ascii) : bool :=
  (32 <=? code c)%N && (code c <? 127)%N
  && negb (code c =? 34)%N && negb (code c =? 92)%N.

Definition plain_key (key : string) : Prop :=
  forallb plain_key_char (list_ascii_of_string key) = true.

(** The longest run of decimal digits of a text. *)
Fixpoint digit_runs (s : list ascii) (run longest : nat) : nat :=
  match s with
  | [] => Nat.max run longest
  | c :: r =>
      if is_digit c then digit_runs r (S run) longest
      else digit_runs r 0%nat (Nat.max run longest)
  end.

Definition longest_digit_run (text : string) : nat :=
  digit_runs (list_ascii_of_string text) 0%nat 0%nat.

(** The opening brackets and braces of a text: no value in it is nested
    deeper. *)
Definition opening_brackets (text : string) : nat :=
  List.length
    (List.filter (fun c => (code c =? 91)%N || (code c =? 123)%N)
       (list_ascii_of_string text)).

(** [sys.get_int_max_str_digits()], as the interpreter starts. *)
Definition int_max_str_digits : nat := 4300.

(** A nesting far below the recursion limit, 1000 as the interpreter
    starts. *)
Definition nesting_bound : nat := 100.

(** The texts on which [json.loads] raises nothing but [JSONDecodeError]: no
    run of more than 4300 digits, and no more than a hundred opening
    brackets. *)
Definition within_json_limits (text : string) : Prop :=
  (longest_digit_run text <=? int_max_str_digits)%nat
  && (opening_brackets text <=? nesting_bound)%nat = true.

(** [None], the booleans, the integers a JavaScript number holds exactly,
    and the strings. *)
Definition scalar_value (v : json) : Prop :=
  match v with
  | JNull | JBool _ | JStr _ => True
  | JInt z => safe_integer z
  | JFloat _ | JList _ | JDict _ => False
  end.

(** A scalar, or a list of scalars: the values for which the literal of
    [json.dumps] and its string conversion in the browser are those of
    [js_to_string] whatever the length of the value. *)
Definition plain_value (v : json) : Prop :=
  match v with
  | JList items => Forall scalar_value items
  | _ => scalar_value v
  end.

(** The values that [get_item] gives back as [set_item] was given them. *)
Definition reads_back (v : json) : Prop :=
  match v with
  | JNull | JBool _ => True
  | JInt z => safe_integer z
  | JStr text => json_loads text = None ∧ within_json_limits text
  | JFloat _ | JList _ | JDict _ => False
  end.

(** [set_item(key, value)] followed by [get_item(key)]. *)
Definition write_then_read (ext : Externals) (key : string) (value : json) : M json :=
  LocalStorage.set_item ext key value ;; LocalStorage.get_item key.

(** ** How a resolution can end *)

(** The exception of an [await] on [None]. *)
Definition await_TypeError : exn :=
  TypeError "object NoneType can't be used in 'await' expression".

(** What the handler of [get_user] leaves behind. *)
Definition logged_out_by_get_user (s s' : state) : Prop :=
  user_storage s' = ∅ ∧ tab_storage s' = ∅ ∧ local_storage s' = ∅
  ∧ active_route (trace s') = Some (PStr "/login")
  ∧ ∃ tr, trace s' = trace s ++ tr
      ∧ notifications tr = [Notify "Your token has expired, please log in again" "negative"].

(** A step that leaves the user tier and the browser as they were, shows
    nothing and sends the client nowhere. *)
Definition quiet (s s' : state) : Prop :=
  user_storage s' = user_storage s ∧ local_storage s' = local_storage s
  ∧ ∃ tr, trace s' = trace s ++ tr ∧ notifications tr = [] ∧ navigations tr = [].

(** The ["field"] entries of the [columnDefs] of the bookings grid, in their
    order. *)
Definition upcoming_classes_column_fields : list string :=
  ["id"; "class_name"; "start_date"; "start_time"; "duration"; "coach_name"; "status"].

(** The tab tier holds a user object under ["user"] and a session object
    under ["otf"], when it holds them at all. *)
Definition tab_objects (s : state) : Prop :=
  (∀ v, tab_storage s !! "user" = Some v → ∃ u, v = PUser u)
  ∧ (∀ v, tab_storage s !! "otf" = Some v → ∃ o, v = POtf o).

Definition keeps_tab_objects {A} (m : M A) : Prop :=
  ∀ s, tab_objects s → tab_objects (m s).1.

(** Further sample collaborators and values. *)
Module Cases.

(** A service whose login call fails the verification of its tokens. *)
Definition ext_login_expired : Externals :=
  {| OtfUser_login username password := Raise TokenVerificationException;
     OtfUser_from_token := OtfUser_from_token Samples.ext;
     Otf_hydrate := Otf_hydrate Samples.ext;
     Otf_create := Otf_create Samples.ext;
     Otf_get_classes := Otf_get_classes Samples.ext;
     Otf_get_bookings := Otf_get_bookings Samples.ext;
     Number_toString := Number_toString Samples.ext |}.

(** A user whose device key is made of digits. *)
Definition numeric_user : OtfUser :=
  {| get_tokens := get_tokens Samples.alice; device_key := JStr "12345" |}.

End Cases.

(** ** Equations of the storage bridge *)

Ltac unfold_prims :=
  unfold notify, navigate_to, call, emit, get_state, ret, raise, await_None,
    user_get, user_getitem, user_setitem, user_clear,
    tab_getitem, tab_setitem, tab_clear,
    LocalStorage.set_item, LocalStorage.clear.

Ltac run_m :=
  repeat first [ progress (unfold bind at 1) | progress unfold_prims | progress simpl ].

Lemma get_item_returns (key : string) (s : state) :
  ∃ v, LocalStorage.get_item key s = (s, Return v).
Proof.
  unfold LocalStorage.get_item.
  destruct (local_storage s !! key) as [val|]; [destruct (json_loads val)|]; eauto.
Qed.

Lemma get_item_absent (key : string) (s : state) :
  local_storage s !! key = None →
  LocalStorage.get_item key s = (s, Return JNull).
Proof. intros H. unfold LocalStorage.get_item. by rewrite H. Qed.

Lemma clear_all_storage_eq (s : state) :
  clear_all_storage s =
    (State ∅ ∅ ∅ (trace s ++ [UserClear; TabClear; LocalClear]), Return tt).
Proof. unfold clear_all_storage. run_m. by rewrite <- ?app_assoc. Qed.

Lemma logout_eq (s : state) :
  logout s =
    (State ∅ ∅ ∅
       (trace s ++ [UserClear; TabClear; LocalClear; Navigate (PStr "/login")]),
     Return tt).
Proof.
  unfold logout. unfold bind at 1. rewrite clear_all_storage_eq.
  run_m. by rewrite <- ?app_assoc.
Qed.

Lemma add_otf_to_storage_eq (ext : Externals) (otf : Otf) (s : state) :
  add_otf_to_storage ext otf s =
    (State (<["otf_hydration_dict" := PJson (get_hydration_dict otf)]> (user_storage s))
           (<["otf" := POtf otf]> (tab_storage s))
           (<["device_key" := js_to_string ext (device_key (otf_user otf))]> (local_storage s))
           (trace s ++ [TabWrite "otf"; LocalWrite "device_key";
                        UserWrite "otf_hydration_dict"]),
     Return tt).
Proof. unfold add_otf_to_storage. run_m. by rewrite <- ?app_assoc. Qed.

Lemma add_user_to_storage_eq (ext : Externals) (user : OtfUser) (s : state) :
  add_user_to_storage ext user s =
    (State (<["tokens" := PJson (get_tokens user)]> (user_storage s))
           (<["user" := PUser user]> (tab_storage s))
           (<["device_key" := js_to_string ext (device_key user)]> (local_storage s))
           (trace s ++ [UserWrite "tokens"; LocalWrite "device_key"; TabWrite "user"]),
     Return tt).
Proof. unfold add_user_to_storage. run_m. by rewrite <- ?app_assoc. Qed.

Lemma active_route_app_navigate (tr : list event) (target : pyval) :
  active_route (tr ++ [Navigate target]) = Some target.
Proof. induction tr as [|ev tr IH]; simpl; [done|]. by rewrite IH. Qed.

Lemma active_route_app (tr tr' : list event) :
  active_route (tr ++ tr') =
    match active_route tr' with
    | Some target => Some target
    | None => active_route tr
    end.
Proof.
  induction tr as [|ev tr IH]; simpl.
  - by destruct (active_route tr').
  - rewrite IH. by destruct (active_route tr').
Qed.

Lemma count_calls_app (callee : string) (tr tr' : list event) :
  count_calls callee (tr ++ tr') = count_calls callee tr + count_calls callee tr'.
Proof. unfold count_calls. by rewrite List.filter_app, List.length_app. Qed.

(** ** The storage bridge *)


(** ** The session resolver *)

(** What [get_user] does when the stored tokens fail verification. *)
Lemma get_user_token_failure_eq (ext : Externals) (s : state) (tokens : pyval) (dk : json) :
  tab_storage s !! "user" = None →
  user_storage s !! "tokens" = Some tokens →
  (LocalStorage.get_item "device_key" s).2 = Return dk →
  OtfUser_from_token ext tokens dk = Raise TokenVerificationException →
  get_user ext s =
    (State ∅ ∅ ∅
       (trace s ++ [ExternalCall "OtfUser.from_token";
                    Notify "Your token has expired, please log in again" "negative";
                    UserClear; TabClear; LocalClear; Navigate (PStr "/login")]),
     Raise (TypeError "object NoneType can't be used in 'await' expression")).
Proof.
  intros Htab Htok Hdk Hext.
  destruct (get_item_returns "device_key" s) as [v Hv].
  rewrite Hv in Hdk. simpl in Hdk. injection Hdk as ->.
  unfold get_user. unfold bind at 1. simpl. rewrite Htab.
  unfold try_except. unfold bind at 1. rewrite Hv.
  unfold bind at 1, user_getitem. rewrite Htok.
  run_m. rewrite Hext. run_m.
  by rewrite <- ?app_assoc.
Qed.

(** C2: when the tab tier holds no user and [OtfUser.from_token] rejects the
    stored tokens with a token-verification failure, [get_user] leaves all
    three tiers without any key, the last navigation is to the login page, a
    notification was shown, and [from_token] was called once and not again. *)
Theorem get_user_token_failure_clears_and_redirects
    (ext : Externals) (s : state) (tokens : pyval) (dk : json) :
  tab_storage s !! "user" = None →
  user_storage s !! "tokens" = Some tokens →
  (LocalStorage.get_item "device_key" s).2 = Return dk →
  OtfUser_from_token ext tokens dk = Raise TokenVerificationException →
  let s' := (get_user ext s).1 in
  user_storage s' = ∅
  ∧ tab_storage s' = ∅
  ∧ local_storage s' = ∅
  ∧ active_route (trace s') = Some (PStr "/login")
  ∧ (∃ tr, trace s' = trace s ++ tr
       ∧ notifications tr
           = [Notify "Your token has expired, please log in again" "negative"]
       ∧ count_calls "OtfUser.from_token" tr = 1
       ∧ count_calls "OtfUser.login" tr = 0).
Proof.
  intros Htab Htok Hdk Hext.
  rewrite (get_user_token_failure_eq ext s tokens dk) by done. simpl.
  repeat split.
  - rewrite active_route_app. done.
  - eexists. split; [reflexivity|]. done.
Qed.

(** [get_otf] on a state whose tab tier already holds a session. *)
Lemma get_otf_from_tab (ext : Externals) (s : state) (v : pyval) :
  tab_storage s !! "otf" = Some v →
  get_otf ext s = (s, Return v).
Proof.
  intros H. unfold get_otf. unfold bind at 1. simpl. rewrite H.
  unfold tab_getitem. by rewrite H.
Qed.

(** [get_otf] on a state that satisfies the guard of the hydration branch. *)
Lemma get_otf_hydrate_eq (ext : Externals) (s : state) (blob dk : pyval) (otf : Otf) :
  tab_storage s !! "otf" = None →
  user_storage s !! "otf_hydration_dict" = Some blob →
  tab_storage s !! "device_key" = Some dk →
  Otf_hydrate ext blob dk = Return otf →
  get_otf ext s =
    (State (<["otf_hydration_dict" := PJson (get_hydration_dict otf)]> (user_storage s))
           (<["otf" := POtf otf]> (tab_storage s))
           (<["device_key" := js_to_string ext (device_key (otf_user otf))]> (local_storage s))
           (trace s ++ [ExternalCall "Otf.hydrate"; TabWrite "otf";
                        LocalWrite "device_key"; UserWrite "otf_hydration_dict"]),
     Return (POtf otf)).
Proof.
  intros Hotf Hblob Hdk Hext.
  unfold get_otf. unfold bind at 1. simpl. rewrite Hotf, Hblob, Hdk.
  rewrite !bool_decide_eq_true_2 by eauto. simpl.
  unfold bind at 1, user_getitem. rewrite Hblob.
  unfold bind at 1, tab_getitem. rewrite Hdk.
  run_m. rewrite Hext. run_m.
  by rewrite <- ?app_assoc.
Qed.

(** C3: with a hydration blob in the user tier, a device identifier in the
    tab tier and no session in the tab tier, [get_otf] calls [Otf.hydrate] on
    the blob and the identifier, stores the session it gives in the tab tier
    and returns it; a second [get_otf] returns that same session from the tab
    tier without changing anything. *)
Theorem get_otf_hydrates_then_serves_from_tab
    (ext : Externals) (s : state) (blob dk : pyval) (otf : Otf) :
  tab_storage s !! "otf" = None →
  user_storage s !! "otf_hydration_dict" = Some blob →
  tab_storage s !! "device_key" = Some dk →
  Otf_hydrate ext blob dk = Return otf →
  let s' := (get_otf ext s).1 in
  (get_otf ext s).2 = Return (POtf otf)
  ∧ tab_storage s' !! "otf" = Some (POtf otf)
  ∧ (∃ tr, trace s' = trace s ++ tr ∧ count_calls "Otf.hydrate" tr = 1
             ∧ count_calls "Otf.create" tr = 0)
  ∧ get_otf ext s' = (s', Return (POtf otf)).
Proof.
  intros Hotf Hblob Hdk Hext.
  rewrite (get_otf_hydrate_eq ext s blob dk otf) by done. simpl.
  split; [done|]. split; [by rewrite lookup_insert_eq|].
  split; [eexists; split; [reflexivity|done]|].
  apply get_otf_from_tab. simpl. by rewrite lookup_insert_eq.
Qed.

(** ** The login form *)

(** [try_login] when the service accepts the credentials: every store of the
    [try] block happens, the [await] on the result of [add_user_to_storage]
    raises, and the last [except] clause answers with its notification. *)
Lemma try_login_accepted_eq
    (ext : Externals) (s : state) (username password : string) (user : OtfUser) :
  truthy (default PNone (user_storage s !! "authenticated")) = false →
  OtfUser_login ext username password = Return user →
  try_login ext username password s =
    (State (<["tokens" := PJson (get_tokens user)]>
              (<["authenticated" := PBool true]>
                 (<["username" := PStr username]> (user_storage s))))
           (<["user" := PUser user]> (tab_storage s))
           (<["device_key" := js_to_string ext (device_key user)]> (local_storage s))
           (trace s ++ [ExternalCall "OtfUser.login"; UserWrite "username";
                        UserWrite "authenticated"; UserWrite "tokens";
                        LocalWrite "device_key"; TabWrite "user";
                        Notify "Wrong username or password" "negative"]),
     Return tt).
Proof.
  intros Hauth Hlogin.
  unfold try_login, try_except, try_login_body.
  run_m. rewrite Hauth. run_m. rewrite Hlogin. run_m.
  by rewrite <- ?app_assoc.
Qed.

(** The [try] block of [try_login] on the same input. *)
Lemma try_login_body_accepted_raises
    (ext : Externals) (s : state) (username password : string) (user : OtfUser) :
  truthy (default PNone (user_storage s !! "authenticated")) = false →
  OtfUser_login ext username password = Return user →
  (try_login_body ext username password s).2 =
    Raise (TypeError "object NoneType can't be used in 'await' expression").
Proof.
  intros Hauth Hlogin. unfold try_login_body.
  run_m. rewrite Hauth. run_m. rewrite Hlogin. by run_m.
Qed.

(** C1: for a login that the service accepts, from a state not marked
    authenticated, [try_login] stores [authenticated = True], the user name
    and the token bundle in the user tier, and then does not navigate: the
    handler ends with the notification of a failed login, and the route is
    the one it was before, whether or not a referrer path is stored. *)
Theorem try_login_accepted_stores_but_never_navigates
    (ext : Externals) (s : state) (username password : string) (user : OtfUser) :
  truthy (default PNone (user_storage s !! "authenticated")) = false →
  OtfUser_login ext username password = Return user →
  let s' := (try_login ext username password s).1 in
  user_storage s' !! "authenticated" = Some (PBool true)
  ∧ user_storage s' !! "username" = Some (PStr username)
  ∧ user_storage s' !! "tokens" = Some (PJson (get_tokens user))
  ∧ user_storage s' !! "referrer_path" = user_storage s !! "referrer_path"
  ∧ active_route (trace s') = active_route (trace s)
  ∧ (∃ tr, trace s' = trace s ++ tr
       ∧ navigations tr = []
       ∧ notifications tr = [Notify "Wrong username or password" "negative"]).
Proof.
  intros Hauth Hlogin.
  rewrite (try_login_accepted_eq ext s username password user) by done. simpl.
  repeat split.
  - by rewrite lookup_insert_ne, lookup_insert_eq by done.
  - by rewrite !lookup_insert_ne, lookup_insert_eq by done.
  - by rewrite lookup_insert_eq.
  - by rewrite !lookup_insert_ne by done.
  - by rewrite active_route_app.
  - eexists. split; [reflexivity|]. done.
Qed.

Lemma try_login_accepted_witness :
  truthy (default PNone (user_storage Samples.empty !! "authenticated")) = false
  ∧ OtfUser_login Samples.ext "alice" "correct" = Return Samples.alice
  ∧ let s' := (try_login Samples.ext "alice" "correct" Samples.empty).1 in
    user_storage s' !! "authenticated" = Some (PBool true)
    ∧ user_storage s' !! "username" = Some (PStr "alice")
    ∧ user_storage s' !! "tokens" = Some (PJson (get_tokens Samples.alice))
    ∧ user_storage s' !! "referrer_path" = user_storage Samples.empty !! "referrer_path"
    ∧ active_route (trace s') = active_route (trace Samples.empty)
    ∧ (∃ tr, trace s' = trace Samples.empty ++ tr
         ∧ navigations tr = []
         ∧ notifications tr = [Notify "Wrong username or password" "negative"]).
Proof.
  split; [reflexivity|]. split; [reflexivity|].
  apply (try_login_accepted_stores_but_never_navigates
           Samples.ext Samples.empty "alice" "correct" Samples.alice);
    reflexivity.
Defined.

(** [try_login] when the login call itself raises. *)
Lemma try_login_rejected_eq
    (ext : Externals) (s : state) (username password : string) (e : exn) :
  truthy (default PNone (user_storage s !! "authenticated")) = false →
  OtfUser_login ext username password = Raise e →
  e ≠ TokenVerificationException →
  try_login ext username password s =
    (State (user_storage s) (tab_storage s) (local_storage s)
           (trace s ++ [ExternalCall "OtfUser.login";
                        Notify "Wrong username or password" "negative"]),
     Return tt).
Proof.
  intros Hauth Hlogin Hne.
  unfold try_login, try_except, try_login_body.
  run_m. rewrite Hauth. run_m. rewrite Hlogin. run_m.
  destruct e; try done; run_m; by rewrite <- ?app_assoc.
Qed.

(** X17: when the login call raises an exception other than a
    token-verification failure, [try_login] catches it, shows the
    notification of a failed login, and leaves each of the three tiers with
    exactly the values it held. *)
Theorem try_login_rejected_leaves_storage
    (ext : Externals) (s : state) (username password : string) (e : exn) :
  truthy (default PNone (user_storage s !! "authenticated")) = false →
  OtfUser_login ext username password = Raise e →
  e ≠ TokenVerificationException →
  let r := try_login ext username password s in
  r.2 = Return tt
  ∧ user_storage r.1 = user_storage s
  ∧ tab_storage r.1 = tab_storage s
  ∧ local_storage r.1 = local_storage s
  ∧ (∃ tr, trace r.1 = trace s ++ tr
       ∧ notifications tr = [Notify "Wrong username or password" "negative"]
       ∧ navigations tr = []).
Proof.
  intros Hauth Hlogin Hne.
  rewrite (try_login_rejected_eq ext s username password e) by done. simpl.
  repeat split. eexists. split; [reflexivity|]. done.
Qed.

Lemma try_login_rejected_witness :
  let s := Samples.logged_in in
  let s0 := State (delete "authenticated" (user_storage s)) (tab_storage s)
                  (local_storage s) [] in
  let r := try_login Samples.ext "alice" "wrong" s0 in
  r.2 = Return tt
  ∧ user_storage r.1 = user_storage s0
  ∧ tab_storage r.1 = tab_storage s0
  ∧ local_storage r.1 = local_storage s0
  ∧ (∃ tr, trace r.1 = trace s0 ++ tr
       ∧ notifications tr = [Notify "Wrong username or password" "negative"]
       ∧ navigations tr = []).
Proof.
  apply (try_login_rejected_leaves_storage Samples.ext _ "alice" "wrong"
           (OtherException "NotAuthorizedException"));
    [reflexivity | reflexivity | discriminate].
Defined.

(** C7, the code on an accepted login: the [try] block raises the
    [TypeError] of [await add_user_to_storage(user)], which is not a
    token-verification failure; the handler catches it and shows the
    notification of a failed login, yet all three tiers have been written
    by then, where the claim has none of them mutated. *)
Lemma try_login_caught_exception_after_writes :
  let s := Samples.empty in
  let r := try_login Samples.ext "alice" "correct" s in
  (∃ e, (try_login_body Samples.ext "alice" "correct" s).2 = Raise e
        ∧ e ≠ TokenVerificationException)
  ∧ r.2 = Return tt
  ∧ notifications (trace r.1) = [Notify "Wrong username or password" "negative"]
  ∧ user_storage r.1 ≠ user_storage s
  ∧ tab_storage r.1 ≠ tab_storage s
  ∧ local_storage r.1 ≠ local_storage s.
Proof.
  split.
  { eexists. split; [reflexivity | discriminate]. }
  rewrite (try_login_accepted_eq Samples.ext Samples.empty "alice" "correct" Samples.alice)
    by reflexivity.
  simpl. repeat split; done.
Qed.

(** ** Logging out *)

(** The three tiers of [Samples.logged_in] are those a login of alice and a
    following [get_otf] leave behind. *)
Example logged_in_is_reached :
  let s := run Samples.ext CallGetOtf
             (run Samples.ext (ClickLogIn "alice" "correct") Samples.empty) in
  user_storage s = user_storage Samples.logged_in
  ∧ tab_storage s = tab_storage Samples.logged_in
  ∧ local_storage s = local_storage Samples.logged_in.
Proof.
  cbv zeta. unfold run.
  rewrite (try_login_accepted_eq Samples.ext Samples.empty "alice" "correct" Samples.alice)
    by reflexivity.
  cbn [fst]. repeat split; apply map_eq; intros k; vm_compute; reflexivity.
Qed.

(** The button of the home page clears the user tier and nothing else. *)
Lemma main_page_logout_click_eq (s : state) :
  main_page_logout_click s =
    (State ∅ (tab_storage s) (local_storage s)
           (trace s ++ [UserClear; Navigate (PStr "/login")]),
     Return tt).
Proof. unfold main_page_logout_click. run_m. by rewrite <- ?app_assoc. Qed.

(** The button of the header clears all three tiers. *)
Lemma header_logout_click_eq (s : state) :
  header_logout_click s =
    (State ∅ ∅ ∅
       (trace s ++ [UserClear; TabClear; LocalClear; Navigate (PStr "/login")]),
     Return tt).
Proof. apply logout_eq. Qed.

(** C6: on a tab with a live session, the logout button of the home page
    empties the user tier and sends the client to the login page while the
    tab tier still holds the user and the session and the browser still holds
    the device identifier; the next [get_otf] serves the old session. *)
Theorem main_page_logout_leaves_two_tiers :
  let s' := (main_page_logout_click Samples.logged_in).1 in
  user_storage s' = ∅
  ∧ active_route (trace s') = Some (PStr "/login")
  ∧ tab_storage s' !! "otf" = Some (POtf (Samples.session Samples.alice))
  ∧ tab_storage s' !! "user" = Some (PUser Samples.alice)
  ∧ local_storage s' !! "device_key" = Some "device-1"
  ∧ get_otf Samples.ext s' = (s', Return (POtf (Samples.session Samples.alice))).
Proof.
  rewrite main_page_logout_click_eq. simpl.
  repeat split; reflexivity.
Qed.

Lemma get_user_token_failure_witness :
  let s := State (user_storage Samples.logged_in) ∅ (local_storage Samples.logged_in) [] in
  let s' := (get_user Samples.ext s).1 in
  user_storage s' = ∅
  ∧ tab_storage s' = ∅
  ∧ local_storage s' = ∅
  ∧ active_route (trace s') = Some (PStr "/login")
  ∧ (∃ tr, trace s' = trace s ++ tr
       ∧ notifications tr
           = [Notify "Your token has expired, please log in again" "negative"]
       ∧ count_calls "OtfUser.from_token" tr = 1
       ∧ count_calls "OtfUser.login" tr = 0).
Proof.
  apply (get_user_token_failure_clears_and_redirects Samples.ext _
           (PJson (get_tokens Samples.alice)) (JStr "device-1"));
    reflexivity.
Defined.

Lemma get_otf_hydrates_witness :
  let s := State (user_storage Samples.logged_in)
                 (<["device_key" := PStr "device-1"]> ∅)
                 (local_storage Samples.logged_in) [] in
  let otf := Samples.session Samples.alice in
  let s' := (get_otf Samples.ext s).1 in
  (get_otf Samples.ext s).2 = Return (POtf otf)
  ∧ tab_storage s' !! "otf" = Some (POtf otf)
  ∧ (∃ tr, trace s' = trace s ++ tr ∧ count_calls "Otf.hydrate" tr = 1
             ∧ count_calls "Otf.create" tr = 0)
  ∧ get_otf Samples.ext s' = (s', Return (POtf otf)).
Proof.
  apply (get_otf_hydrates_then_serves_from_tab Samples.ext _
           (PJson (get_hydration_dict (Samples.session Samples.alice)))
           (PStr "device-1"));
    reflexivity.
Defined.

(** ** The tab tier never holds a device identifier *)

Lemma preserves_ret {A} (a : A) : preserves (ret a).
Proof. by intros s H. Qed.

Lemma preserves_raise {A} (e : exn) : preserves (@raise A e).
Proof. by intros s H. Qed.

Lemma preserves_bind {A B} (m : M A) (k : A → M B) :
  preserves m → (∀ a, preserves (k a)) → preserves (bind m k).
Proof.
  intros Hm Hk s H. unfold bind. specialize (Hm s H).
  destruct (m s) as [s' [a|e]]; simpl in *; [by apply Hk | done].
Qed.

Lemma preserves_try_except {A} (body : M A) (handlers : exn → option (M A)) :
  preserves body → (∀ e h, handlers e = Some h → preserves h) →
  preserves (try_except body handlers).
Proof.
  intros Hb Hh s H. unfold try_except. specialize (Hb s H).
  destruct (body s) as [s' [a|e]]; simpl in *; [done|].
  destruct (handlers e) as [h|] eqn:He; [by eapply Hh | done].
Qed.

Lemma preserves_emit (ev : event) : allowed ev → preserves (emit ev).
Proof.
  intros Hev s [Htab Htr]. split; simpl; [done|].
  apply Forall_app. split; [done|]. by constructor.
Qed.

Lemma preserves_pure {A} (m : M A) : (∀ s, (m s).1 = s) → preserves m.
Proof. intros Hm s H. by rewrite Hm. Qed.

Lemma preserves_tab_setitem (key : string) (v : pyval) :
  key ≠ "device_key" → preserves (tab_setitem key v).
Proof.
  intros Hk s [Htab Htr]. split; simpl.
  - by rewrite lookup_insert_ne.
  - apply Forall_app. split; [done|]. constructor; [|done]. split; congruence.
Qed.

Lemma preserves_user_setitem key v : preserves (user_setitem key v).
Proof.
  intros s [Htab Htr]. split; simpl; [done|].
  apply Forall_app. split; [done|]. constructor; [|done]. split; congruence.
Qed.

Lemma preserves_user_update items : preserves (user_update items).
Proof.
  induction items as [|[k v] items IH]; simpl.
  - apply preserves_ret.
  - apply preserves_bind; [apply preserves_user_setitem | done].
Qed.

Lemma preserves_user_clear : preserves user_clear.
Proof.
  intros s [Htab Htr]. split; simpl; [done|].
  apply Forall_app. split; [done|]. constructor; [|done]. split; congruence.
Qed.

Lemma preserves_tab_clear : preserves tab_clear.
Proof.
  intros s [Htab Htr]. split; simpl; [done|].
  apply Forall_app. split; [done|]. constructor; [|done]. split; congruence.
Qed.

Lemma preserves_set_item ext key v : preserves (LocalStorage.set_item ext key v).
Proof.
  intros s [Htab Htr]. split; simpl; [done|].
  apply Forall_app. split; [done|]. constructor; [|done]. split; congruence.
Qed.

Lemma preserves_clear : preserves LocalStorage.clear.
Proof.
  intros s [Htab Htr]. split; simpl; [done|].
  apply Forall_app. split; [done|]. constructor; [|done]. split; congruence.
Qed.

Lemma preserves_get_item key : preserves (LocalStorage.get_item key).
Proof.
  apply preserves_pure. intros s.
  destruct (get_item_returns key s) as [v ->]. done.
Qed.

Lemma preserves_call {A} callee (r : outcome A) :
  callee ≠ "Otf.hydrate" → preserves (call callee r).
Proof.
  intros Hc. unfold call. apply preserves_bind.
  - apply preserves_emit. split; congruence.
  - intros _. by intros s H.
Qed.

Create HintDb preserves.
#[local] Hint Resolve preserves_ret preserves_raise preserves_user_setitem
  preserves_user_update preserves_user_clear preserves_tab_clear
  preserves_set_item preserves_clear preserves_get_item : preserves.

Ltac preserves_tac :=
  repeat first
    [ apply preserves_bind; [|intros ?]
    | apply preserves_try_except; [|intros ? ? ?]
    | apply preserves_call; discriminate
    | apply preserves_tab_setitem; discriminate
    | apply preserves_emit; split; discriminate
    | apply preserves_pure; intros ?; unfold user_get, user_getitem, tab_getitem, get_state;
      simpl; repeat case_match; reflexivity
    | solve [auto with preserves] ].

Lemma preserves_clear_all_storage : preserves clear_all_storage.
Proof. unfold clear_all_storage. preserves_tac. Qed.

Lemma preserves_logout : preserves logout.
Proof. unfold logout, navigate_to. preserves_tac. Qed.

Lemma preserves_add_user_to_storage ext u : preserves (add_user_to_storage ext u).
Proof. unfold add_user_to_storage. preserves_tac. Qed.

Lemma preserves_add_otf_to_storage ext o : preserves (add_otf_to_storage ext o).
Proof. unfold add_otf_to_storage. preserves_tac. Qed.

Lemma preserves_get_user ext : preserves (get_user ext).
Proof.
  unfold get_user. apply preserves_bind; [preserves_tac|]. intros s.
  destruct (tab_storage s !! "user"); [preserves_tac|].
  apply preserves_try_except.
  - preserves_tac.
  - intros e h He. destruct (_ || _); [|done]. injection He as <-.
    unfold notify, await_None. preserves_tac.
Qed.

Lemma preserves_get_otf ext : preserves (get_otf ext).
Proof.
  intros s H. pose proof H as [Hdk _].
  unfold get_otf. unfold bind at 1. simpl.
  destruct (tab_storage s !! "otf").
  - revert H. generalize s. change (preserves (tab_getitem "otf")). preserves_tac.
  - rewrite Hdk. rewrite (bool_decide_eq_false_2 (is_Some None)) by (by intros [? ?]).
    rewrite andb_false_r.
    revert H. generalize s.
    match goal with |- ∀ s0, _ → no_tab_device_key (?m s0).1 => change (preserves m) end.
    apply preserves_bind; [apply preserves_get_user|]. intros u.
    destruct (truthy u); unfold navigate_to; preserves_tac.
    all: apply preserves_add_otf_to_storage.
Qed.

Lemma preserves_run ext a : ∀ s, no_tab_device_key s → no_tab_device_key (run ext a s).
Proof.
  destruct a; simpl.
  - apply preserves_user_setitem.
  - change (preserves main_page). unfold main_page. preserves_tac.
  - change (preserves login). unfold login. preserves_tac.
  - change (preserves (classes ext)). unfold classes. apply preserves_bind; [apply preserves_get_otf|].
    intros [j|u|o]; preserves_tac.
  - change (preserves (upcoming_classes ext)). unfold upcoming_classes. apply preserves_bind; [apply preserves_get_otf|].
    intros [j|u|o]; preserves_tac.
  - apply preserves_logout.
  - change (preserves main_page_logout_click). unfold main_page_logout_click, navigate_to. preserves_tac.
  - change (preserves (try_login ext username password)). unfold try_login, try_login_body.
    apply preserves_try_except.
    + apply preserves_bind; [preserves_tac|]. intros a. destruct (negb _); [|preserves_tac].
      unfold await_None, navigate_to. preserves_tac.
    + intros e h He. destruct (is_TokenVerificationException e); injection He as <-;
        unfold notify; preserves_tac.
  - apply preserves_get_otf.
  - apply preserves_get_user.
  - apply preserves_logout.
  - apply preserves_add_user_to_storage.
  - apply preserves_add_otf_to_storage.
  - apply preserves_clear_all_storage.
  - apply preserves_set_item.
  - apply preserves_get_item.
  - change (preserves LocalStorage.get_all_items). by apply preserves_pure.
  - apply preserves_clear.
Qed.

(** C10: in every state a client can reach from a fresh tab, the tab tier has
    no ["device_key"] entry, no write of that key to the tab tier has
    happened, and [Otf.hydrate] has never been called, a further [get_otf]
    included; [add_user_to_storage] and [add_otf_to_storage] put the device
    identifier into the browser's storage only. *)
Theorem tab_tier_never_holds_device_key (s : state) :
  reachable s →
  tab_storage s !! "device_key" = None
  ∧ (TabWrite "device_key" ∉ trace s)
  ∧ count_calls "Otf.hydrate" (trace s) = 0
  ∧ (∀ ext, count_calls "Otf.hydrate" (trace (get_otf ext s).1) = 0)
  ∧ (∀ ext user,
       let s' := (add_user_to_storage ext user s).1 in
       tab_storage s' !! "device_key" = None
       ∧ local_storage s' !! "device_key" = Some (js_to_string ext (device_key user)))
  ∧ (∀ ext otf,
       let s' := (add_otf_to_storage ext otf s).1 in
       tab_storage s' !! "device_key" = None
       ∧ local_storage s' !! "device_key"
           = Some (js_to_string ext (device_key (otf_user otf)))).
Proof.
  intros Hs.
  assert (Hinv : ∀ s0, reachable s0 → no_tab_device_key s0).
  { clear. induction 1 as [s0 [Htab Htr]|ext a s0 _ IH].
    - split; [by rewrite Htab | by rewrite Htr].
    - by apply preserves_run. }
  assert (Hcount : ∀ s0, no_tab_device_key s0 → count_calls "Otf.hydrate" (trace s0) = 0).
  { clear. intros s0 [_ Htr]. unfold count_calls.
    induction Htr as [|ev tr [_ Hev] _ IH]; simpl; [done|].
    destruct ev; simpl; try done.
    destruct (String.eqb_spec callee "Otf.hydrate"); [congruence | done]. }
  pose proof (Hinv s Hs) as Hinv_s. destruct Hinv_s as [Htab Htr].
  split; [done|]. split.
  { intros Hin. rewrite Forall_forall in Htr. by destruct (Htr _ Hin). }
  split; [by apply Hcount|]. split.
  { intros ext. apply Hcount, preserves_get_otf. by split. }
  split.
  - intros ext user. rewrite add_user_to_storage_eq. simpl.
    rewrite lookup_insert_ne by done. by rewrite lookup_insert_eq.
  - intros ext otf. rewrite add_otf_to_storage_eq. simpl.
    rewrite lookup_insert_ne by done. by rewrite lookup_insert_eq.
Qed.

Lemma tab_tier_never_holds_device_key_witness :
  let s := run Samples.ext CallGetOtf
             (run Samples.ext (ClickLogIn "alice" "correct") Samples.empty) in
  tab_storage s !! "device_key" = None
  ∧ (TabWrite "device_key" ∉ trace s)
  ∧ count_calls "Otf.hydrate" (trace s) = 0
  ∧ (∀ ext, count_calls "Otf.hydrate" (trace (get_otf ext s).1) = 0)
  ∧ (∀ ext user,
       let s' := (add_user_to_storage ext user s).1 in
       tab_storage s' !! "device_key" = None
       ∧ local_storage s' !! "device_key" = Some (js_to_string ext (device_key user)))
  ∧ (∀ ext otf,
       let s' := (add_otf_to_storage ext otf s).1 in
       tab_storage s' !! "device_key" = None
       ∧ local_storage s' !! "device_key"
           = Some (js_to_string ext (device_key (otf_user otf)))).
Proof.
  apply (tab_tier_never_holds_device_key
           (run Samples.ext CallGetOtf
              (run Samples.ext (ClickLogIn "alice" "correct") Samples.empty))).
  apply reachable_step, reachable_step, reachable_fresh.
  split; reflexivity.
Defined.

(** ** Missing keys along the resolution chain *)

(** [get_user] when neither the tab tier has a user nor the user tier has
    tokens: the [KeyError] is handled by the clause that handles a
    token-verification failure. *)
Lemma get_user_missing_tokens_eq (ext : Externals) (s : state) :
  tab_storage s !! "user" = None →
  user_storage s !! "tokens" = None →
  get_user ext s =
    (State ∅ ∅ ∅
       (trace s ++ [Notify "Your token has expired, please log in again" "negative";
                    UserClear; TabClear; LocalClear; Navigate (PStr "/login")]),
     Raise (TypeError "object NoneType can't be used in 'await' expression")).
Proof.
  intros Htab Htok.
  destruct (get_item_returns "device_key" s) as [v Hv].
  unfold get_user. unfold bind at 1. simpl. rewrite Htab.
  unfold try_except. unfold bind at 1. rewrite Hv.
  unfold bind at 1, user_getitem. rewrite Htok.
  run_m. by rewrite <- ?app_assoc.
Qed.

(** [get_user] when the tab tier has no user and the stored tokens are
    accepted. *)
Lemma get_user_from_tokens_eq
    (ext : Externals) (s : state) (tokens : pyval) (dk : json) (user : OtfUser) :
  tab_storage s !! "user" = None →
  user_storage s !! "tokens" = Some tokens →
  (LocalStorage.get_item "device_key" s).2 = Return dk →
  OtfUser_from_token ext tokens dk = Return user →
  get_user ext s =
    (State (user_storage s) (<["user" := PUser user]> (tab_storage s)) (local_storage s)
           (trace s ++ [ExternalCall "OtfUser.from_token"; TabWrite "user"]),
     Return (PUser user)).
Proof.
  intros Htab Htok Hdk Hext.
  destruct (get_item_returns "device_key" s) as [v Hv].
  rewrite Hv in Hdk. simpl in Hdk. injection Hdk as ->.
  unfold get_user. unfold bind at 1. simpl. rewrite Htab.
  unfold try_except. unfold bind at 1. rewrite Hv.
  unfold bind at 1, user_getitem. rewrite Htok.
  run_m. rewrite Hext. run_m. rewrite lookup_insert_eq.
  by rewrite <- ?app_assoc.
Qed.

(** [get_otf] past its first two tiers. *)
Lemma get_otf_falls_to_get_user (ext : Externals) (s : state) :
  tab_storage s !! "otf" = None →
  user_storage s !! "otf_hydration_dict" = None ∨ tab_storage s !! "device_key" = None →
  get_otf ext s =
    match get_user ext s with
    | (s1, Return user) =>
        if truthy user
        then match Otf_create ext user with
             | Return otf =>
                 ((add_otf_to_storage ext otf
                     (State (user_storage s1) (tab_storage s1) (local_storage s1)
                            (trace s1 ++ [ExternalCall "Otf.create"]))).1,
                  Return (POtf otf))
             | Raise e =>
                 (State (user_storage s1) (tab_storage s1) (local_storage s1)
                        (trace s1 ++ [ExternalCall "Otf.create"]),
                  Raise e)
             end
        else (State (user_storage s1) (tab_storage s1) (local_storage s1)
                    (trace s1 ++ [Navigate (PStr "/login")]),
              Return PNone)
    | (s1, Raise e) => (s1, Raise e)
    end.
Proof.
  intros Hotf Hguard.
  unfold get_otf. unfold bind at 1. simpl. rewrite Hotf.
  assert (bool_decide (is_Some (user_storage s !! "otf_hydration_dict"))
          && bool_decide (is_Some (tab_storage s !! "device_key")) = false) as ->.
  { destruct Hguard as [-> | ->];
      rewrite (bool_decide_eq_false_2 (is_Some None)) by (by intros [? ?]);
      [done | apply andb_false_r]. }
  unfold bind at 1.
  destruct (get_user ext s) as [s1 [user|e]]; [|done].
  destruct (truthy user); [|by run_m].
  unfold bind at 1, call. run_m.
  destruct (Otf_create ext user) as [otf|e]; [|done].
  unfold add_otf_to_storage. by run_m.
Qed.




(** ** The classes table *)

Lemma classes_rows_from (classes : list OtfClass) (rows : list (list (string * json))) :
  fold_left (fun rows class_ => rows ++ [classes_row class_]) classes rows
  = rows ++ map classes_row classes.
Proof.
  revert rows. induction classes as [|class_ classes IH]; intros rows; simpl.
  - by rewrite app_nil_r.
  - rewrite IH. by rewrite <- app_assoc.
Qed.

Lemma classes_rows_map (classes : list OtfClass) :
  classes_rows classes = map classes_row classes.
Proof. unfold classes_rows. by rewrite classes_rows_from. Qed.

Example classes_rows_monday :
  classes_rows [Samples.monday_class] =
    [[("Day Of Week", JStr "Monday"); ("Start Date", JStr "2024-03-04");
      ("Start Time", JStr "06:05"); ("Duration", JInt 60);
      ("Class Name", JStr "Orange 60"); ("Coach Name", JStr "Sam");
      ("Studio Name", JStr "Downtown"); ("Class Type", JStr "ORANGE_60");
      ("Is Booked", JBool true); ("Waitlist Available", JBool false);
      ("Home Studio", JBool true)]].
Proof. reflexivity. Qed.

(** C8: for a list of N class records the loop of the classes page builds N
    rows, the i-th from the i-th record; the keys of each row are the eleven
    fields of the grid's columns, each once, and ["Is Booked"] and
    ["Waitlist Available"] hold the record's two booleans. *)
Theorem classes_rows_one_row_per_class (classes : list OtfClass) :
  List.length (classes_rows classes) = List.length classes
  ∧ Forall2
      (fun class_ row =>
         map fst row = classes_column_fields
         ∧ List.length row = 11
         ∧ NoDup (map fst row)
         ∧ dict_get "Is Booked" row = Some (JBool (is_booked class_))
         ∧ dict_get "Waitlist Available" row = Some (JBool (waitlist_available class_)))
      classes (classes_rows classes).
Proof.
  rewrite classes_rows_map. split; [by rewrite List.length_map|].
  induction classes as [|class_ classes IH]; simpl; constructor; [|done].
  repeat split.
  apply (bool_decide_unpack _). by vm_compute.
Qed.

(** ** Decimal digits and [json.loads] *)

Lemma code_digit_char (m : N) : (m < 10)%N → code (digit_char m) = (48 + m)%N.
Proof. intros H. unfold code, digit_char, chr. apply N_ascii_embedding. lia. Qed.

Lemma is_digit_digit_char (m : N) : (m < 10)%N → is_digit (digit_char m) = true.
Proof.
  intros H. unfold is_digit. rewrite code_digit_char by done.
  apply andb_true_intro. split; apply N.leb_le; lia.
Qed.

Lemma digit_val_digit_char (m : N) : (m < 10)%N → digit_val (digit_char m) = Z.of_N m.
Proof. intros H. unfold digit_val. rewrite code_digit_char by done. lia. Qed.

Lemma N_digits_acc (fuel : nat) (n : N) (acc : list ascii) :
  N_digits fuel n acc = N_digits fuel n [] ++ acc.
Proof.
  revert n acc. induction fuel as [|fuel IH]; intros n acc; simpl; [done|].
  destruct (n <? 10)%N; [done|].
  rewrite (IH _ (_ :: acc)), (IH _ [_]). by rewrite <- app_assoc.
Qed.

Lemma int_of_digits_snoc (ds : list ascii) (c : ascii) :
  int_of_digits (ds ++ [c]) = (int_of_digits ds * 10 + digit_val c)%Z.
Proof. unfold int_of_digits. by rewrite fold_left_app. Qed.

Lemma mod10_lt (n : N) : (n mod 10 < 10)%N.
Proof. apply N.mod_lt. lia. Qed.

Lemma N_digits_value (fuel : nat) (n : N) :
  (n < 2 ^ N.of_nat fuel)%N →
  int_of_digits (N_digits fuel n []) = Z.of_N n.
Proof.
  revert n. induction fuel as [|fuel IH]; intros n Hn.
  - simpl in *. assert (n = 0%N) as -> by lia. reflexivity.
  - cbn [N_digits]. destruct (n <? 10)%N eqn:Hlt.
    + apply N.ltb_lt in Hlt. unfold int_of_digits. simpl.
      rewrite digit_val_digit_char by apply mod10_lt.
      rewrite N.mod_small by done. lia.
    + apply N.ltb_ge in Hlt. rewrite N_digits_acc, int_of_digits_snoc.
      rewrite IH.
      * rewrite digit_val_digit_char by apply mod10_lt.
        rewrite N2Z.inj_div, N2Z.inj_mod. change (Z.of_N 10) with 10%Z.
        pose proof (Z.div_mod (Z.of_N n) 10). lia.
      * rewrite Nat2N.inj_succ, N.pow_succ_r' in Hn.
        apply N.Div0.div_lt_upper_bound. lia.
Qed.

Lemma N_digits_all_digits (fuel : nat) (n : N) :
  Forall (fun c => is_digit c = true) (N_digits fuel n []).
Proof.
  revert n. induction fuel as [|fuel IH]; intros n; cbn [N_digits].
  - constructor; [|done]. apply is_digit_digit_char, mod10_lt.
  - destruct (n <? 10)%N.
    + constructor; [|done]. apply is_digit_digit_char, mod10_lt.
    + rewrite N_digits_acc. apply Forall_app. split; [apply IH|].
      constructor; [|done]. apply is_digit_digit_char, mod10_lt.
Qed.

Lemma N_digits_head (fuel : nat) (n : N) :
  (n < 2 ^ N.of_nat fuel)%N → n ≠ 0%N →
  ∃ c r, N_digits fuel n [] = c :: r ∧ code c ≠ 48%N.
Proof.
  revert n. induction fuel as [|fuel IH]; intros n Hn Hne.
  - simpl in Hn. lia.
  - cbn [N_digits]. destruct (n <? 10)%N eqn:Hlt.
    + apply N.ltb_lt in Hlt. eexists _, _. split; [reflexivity|].
      rewrite code_digit_char by apply mod10_lt. rewrite N.mod_small by done. lia.
    + apply N.ltb_ge in Hlt. rewrite N_digits_acc.
      destruct (IH (n / 10)%N) as (c & r & Hd & Hc).
      * rewrite Nat2N.inj_succ, N.pow_succ_r' in Hn.
        apply N.Div0.div_lt_upper_bound. lia.
      * intros H0. apply N.div_small_iff in H0; lia.
      * rewrite Hd. eexists _, _. split; [reflexivity | done].
Qed.

Lemma span_digits_all (ds : list ascii) :
  Forall (fun c => is_digit c = true) ds → span_digits ds = (ds, []).
Proof.
  induction 1 as [|c ds Hc _ IH]; simpl; [done|]. by rewrite Hc, IH.
Qed.

Lemma N_to_digits_fuel (n : N) : (n < 2 ^ N.of_nat (N.to_nat (N.size n)))%N.
Proof. rewrite N2Nat.id. apply N.size_gt. Qed.

Lemma number_int_N_to_digits (n : N) :
  number_int (N_to_digits n) = Some (N_to_digits n, []).
Proof.
  unfold N_to_digits.
  destruct (N.eq_dec n 0%N) as [->|Hne]; [reflexivity|].
  destruct (N_digits_head _ n (N_to_digits_fuel n) Hne) as (c & r & Hd & Hc).
  pose proof (N_digits_all_digits (N.to_nat (N.size n)) n) as Hall.
  rewrite Hd in *. unfold number_int.
  inversion Hall as [|c' r' Hdc Hr]; subst. rewrite Hdc.
  apply N.eqb_neq in Hc. rewrite Hc.
  by rewrite span_digits_all.
Qed.

Lemma match_number_Z_to_digits (z : Z) :
  match_number (Z_to_digits z) = Some (JInt z, []).
Proof.
  unfold Z_to_digits, match_number.
  pose proof (N_digits_value _ _ (N_to_digits_fuel (Z.abs_N z))) as Hval.
  fold (N_to_digits (Z.abs_N z)) in Hval.
  destruct (z <? 0)%Z eqn:Hz.
  - apply Z.ltb_lt in Hz. cbn [number_sign].
    change (code (chr 45) =? 45)%N with true. cbn iota.
    rewrite number_int_N_to_digits. cbn. rewrite Hval.
    do 3 f_equal. lia.
  - apply Z.ltb_ge in Hz.
    pose proof (number_int_N_to_digits (Z.abs_N z)) as Hint.
    pose proof (N_digits_all_digits (N.to_nat (N.size (Z.abs_N z))) (Z.abs_N z)) as Hall.
    fold (N_to_digits (Z.abs_N z)) in Hall.
    destruct (N_to_digits (Z.abs_N z)) as [|c r] eqn:Hd; [discriminate|].
    inversion Hall as [|c' r' Hdc Hr]; subst.
    unfold number_sign.
    assert ((code c =? 45)%N = false) as ->.
    { unfold is_digit in Hdc. apply andb_prop in Hdc as [H1 _].
      apply N.leb_le in H1. apply N.eqb_neq. lia. }
    rewrite Hint. cbn -[int_of_digits]. rewrite Hval. do 3 f_equal. lia.
Qed.

Lemma skip_ws_digit (c : ascii) (r : list ascii) :
  is_ws c = false → skip_ws (c :: r) = c :: r.
Proof. intros H. simpl. by rewrite H. Qed.

Lemma Z_to_digits_head (z : Z) :
  ∃ c r, Z_to_digits z = c :: r ∧ (is_digit c = true ∨ code c = 45%N).
Proof.
  unfold Z_to_digits. destruct (z <? 0)%Z.
  - eexists _, _. split; [reflexivity|]. by right.
  - pose proof (N_digits_all_digits (N.to_nat (N.size (Z.abs_N z))) (Z.abs_N z)) as Hall.
    fold (N_to_digits (Z.abs_N z)) in Hall.
    pose proof (number_int_N_to_digits (Z.abs_N z)) as Hint.
    destruct (N_to_digits (Z.abs_N z)) as [|c r]; [discriminate|].
    inversion Hall; subst. eexists _, _. split; [reflexivity|]. by left.
Qed.

Lemma scan_atom_number (c : ascii) (r : list ascii) :
  is_digit c = true ∨ code c = 45%N →
  scan_atom (c :: r) = match match_number (c :: r) with
                       | Some x => Some x
                       | None => scan_constant (c :: r)
                       end.
Proof.
  intros Hc. unfold scan_atom.
  assert (∀ p ps, (code p =? code c)%N = false →
            starts_with (p :: ps) (c :: r) = None) as Hsw.
  { intros p ps Hp. simpl. destruct (Ascii.eqb_spec p c) as [->|]; [|done].
    by rewrite N.eqb_refl in Hp. }
  assert ((48 ≤ code c ≤ 57)%N ∨ code c = 45%N) as Hrange.
  { destruct Hc as [Hc|Hc]; [left|by right]. unfold is_digit in Hc.
    apply andb_prop in Hc as [H1 H2]. apply N.leb_le in H1, H2. done. }
  cbn [list_ascii_of_string].
  rewrite !Hsw; [done|..]; apply N.eqb_neq; cbn; lia.
Qed.

Lemma json_loads_Z_to_string (z : Z) : json_loads (Z_to_string z) = Some (JInt z).
Proof.
  unfold json_loads, Z_to_string. rewrite list_ascii_of_string_of_list_ascii.
  destruct (Z_to_digits_head z) as (c & r & Hd & Hc).
  pose proof (match_number_Z_to_digits z) as Hnum. rewrite Hd in *.
  assert (Hcode : (48 ≤ code c ≤ 57)%N ∨ code c = 45%N).
  { destruct Hc as [Hc|Hc]; [left|by right]. unfold is_digit in Hc.
    apply andb_prop in Hc as [H1 H2]. apply N.leb_le in H1, H2. done. }
  rewrite skip_ws_digit.
  2:{ unfold is_ws. cbn zeta. repeat (apply orb_false_intro); apply N.eqb_neq; lia. }
  replace (2 * List.length (c :: r) + 2) with (S (2 * List.length (c :: r) + 1)) by lia.
  cbn [scan_once].
  assert ((code c =? 34)%N = false) as -> by (apply N.eqb_neq; lia).
  assert ((code c =? 123)%N = false) as -> by (apply N.eqb_neq; lia).
  assert ((code c =? 91)%N = false) as -> by (apply N.eqb_neq; lia).
  rewrite scan_atom_number by done. rewrite Hnum. reflexivity.
Qed.

(** ** The browser's storage *)

Lemma write_then_read_eq (ext : Externals) (key : string) (v : json) (s : state) :
  write_then_read ext key v s =
    (State (user_storage s) (tab_storage s)
           (<[key := js_to_string ext v]> (local_storage s))
           (trace s ++ [LocalWrite key]),
     Return (default (JStr (js_to_string ext v)) (json_loads (js_to_string ext v)))).
Proof.
  unfold write_then_read, bind, LocalStorage.set_item, LocalStorage.get_item. simpl.
  rewrite lookup_insert_eq. by destruct (json_loads _).
Qed.

(** C9, as the code has it, for a key that needs no escaping between the
    quotes of the JavaScript text and for stored texts inside the limits of
    [json.loads]: [get_item] returns the decoded value when the stored text
    is JSON, the stored text itself when it is not, and [None] for an absent
    key; what [get_item] reads after [set_item(key, v)], for [v] a scalar or
    a list of scalars, is the decoding of the browser's text for [v], and
    that is [v] again for [None], the booleans, the integers a JavaScript
    number holds exactly, and the strings that are not themselves JSON
    texts. *)
Theorem get_item_decodes_best_effort (ext : Externals) (s : state) (key : string) :
  prints_safe_integers ext →
  plain_key key →
  (∀ val, local_storage s !! key = Some val → within_json_limits val →
     LocalStorage.get_item key s = (s, Return (default (JStr val) (json_loads val))))
  ∧ (local_storage s !! key = None →
     LocalStorage.get_item key s = (s, Return JNull))
  ∧ (∀ v, plain_value v → within_json_limits (js_to_string ext v) →
       (write_then_read ext key v s).2
       = Return (default (JStr (js_to_string ext v))
                   (json_loads (js_to_string ext v))))
  ∧ (∀ v, reads_back v → (write_then_read ext key v s).2 = Return v).
Proof.
  intros Hprint Hkey. split; [|split; [|split]].
  - intros val Hval _. unfold LocalStorage.get_item. rewrite Hval.
    by destruct (json_loads val).
  - apply get_item_absent.
  - intros v _ _. by rewrite write_then_read_eq.
  - intros v Hv. rewrite write_then_read_eq. simpl.
    destruct v as [|[|]|z|lit|text|items|pairs]; simpl in *; try done.
    + by rewrite Hprint, json_loads_Z_to_string.
    + destruct Hv as [Hv _]. by rewrite Hv.
Qed.

Lemma get_item_decodes_witness :
  prints_safe_integers Samples.ext
  ∧ plain_key "device_key"
  ∧ within_json_limits "device-1"
  ∧ LocalStorage.get_item "device_key" Samples.logged_in
      = (Samples.logged_in, Return (JStr "device-1"))
  ∧ (write_then_read Samples.ext "device_key" (JList [JInt 1; JNull; JStr "a"])
       Samples.empty).2
      = Return (JStr "1,,a")
  ∧ (write_then_read Samples.ext "device_key" (JStr "device-1") Samples.empty).2
      = Return (JStr "device-1")
  ∧ (write_then_read Samples.ext "device_key" (JInt (-42)) Samples.empty).2
      = Return (JInt (-42))
  ∧ (write_then_read Samples.ext "device_key" JNull Samples.logged_in).2
      = Return JNull.
Proof.
  assert (Hprint : prints_safe_integers Samples.ext) by (intros z _; reflexivity).
  assert (Hkey : plain_key "device_key") by reflexivity.
  assert (Htext : within_json_limits "device-1") by reflexivity.
  split; [exact Hprint|]. split; [exact Hkey|]. split; [exact Htext|].
  split; [|split; [|split; [|split]]].
  - exact (proj1 (get_item_decodes_best_effort Samples.ext Samples.logged_in
                    "device_key" Hprint Hkey) "device-1" eq_refl Htext).
  - assert (Hv : plain_value (JList [JInt 1; JNull; JStr "a"])).
    { repeat constructor; unfold safe_integer; simpl; lia. }
    exact (proj1 (proj2 (proj2 (get_item_decodes_best_effort Samples.ext Samples.empty
                                  "device_key" Hprint Hkey)))
             (JList [JInt 1; JNull; JStr "a"]) Hv eq_refl).
  - apply (get_item_decodes_best_effort Samples.ext Samples.empty "device_key"
             Hprint Hkey).
    split; [reflexivity | exact Htext].
  - apply (get_item_decodes_best_effort Samples.ext Samples.empty "device_key"
             Hprint Hkey).
    unfold reads_back, safe_integer. lia.
  - apply (get_item_decodes_best_effort Samples.ext Samples.logged_in "device_key"
             Hprint Hkey).
    exact I.
Defined.

(** C9, as stated, fails: a string of digits is read back as a number, the
    string true as a boolean, and a list as the text the browser made of
    it. *)
Lemma write_then_read_changes_value :
  (write_then_read Samples.ext "device_key" (JStr "123") Samples.empty).2
    = Return (JInt 123)
  ∧ (write_then_read Samples.ext "device_key" (JStr "true") Samples.empty).2
      = Return (JBool true)
  ∧ (write_then_read Samples.ext "device_key" (JList [JInt 1; JInt 2]) Samples.empty).2
      = Return (JStr "1,2")
  ∧ (write_then_read Samples.ext "device_key" (JDict [("a", JInt 1)]) Samples.empty).2
      = Return (JStr "[object Object]")
  ∧ JInt 123 ≠ JStr "123"
  ∧ prints_safe_integers Samples.ext.
Proof.
  do 4 (split; [reflexivity|]).
  split; [discriminate|].
  intros z _. reflexivity.
Qed.

(** ** The fuel of [json_loads]

    Every parser returns a rest shorter than its input, and so the fuel
    [json_loads] starts with is never used up. *)

Local Open Scope nat_scope.

Lemma skip_ws_length (s : list ascii) : List.length (skip_ws s) ≤ List.length s.
Proof. induction s as [|c s IH]; simpl; [done|]. destruct (is_ws c); simpl; lia. Qed.

Lemma span_digits_length (s ds rest : list ascii) :
  span_digits s = (ds, rest) → List.length ds + List.length rest = List.length s.
Proof.
  revert ds rest. induction s as [|c s IH]; intros ds rest; simpl.
  - by intros [= <- <-].
  - destruct (is_digit c).
    + destruct (span_digits s) as [ds' rest'] eqn:Hs. intros [= <- <-].
      simpl. specialize (IH _ _ eq_refl). lia.
    + intros [= <- <-]. simpl. lia.
Qed.

Lemma starts_with_length (p s r : list ascii) :
  starts_with p s = Some r → List.length p + List.length r = List.length s.
Proof.
  revert s. induction p as [|a p IH]; intros s; simpl.
  - by intros [= ->].
  - destruct s as [|b s]; [done|]. destruct (Ascii.eqb a b); [|done].
    intros H. apply IH in H. simpl. lia.
Qed.

Lemma number_frac_length (s fr rest : list ascii) :
  number_frac s = (fr, rest) → List.length rest ≤ List.length s.
Proof.
  unfold number_frac. destruct s as [|c r]; [by intros [= <- <-]|].
  destruct (code c =? 46)%N; [|by intros [= <- <-]].
  destruct (span_digits r) as [ds rest'] eqn:Hs.
  apply span_digits_length in Hs.
  destruct ds; intros [= <- <-]; simpl in *; lia.
Qed.

Lemma number_exp_length (s ex rest : list ascii) :
  number_exp s = (ex, rest) → List.length rest ≤ List.length s.
Proof.
  unfold number_exp. destruct s as [|e r]; [by intros [= <- <-]|].
  destruct (_ || _)%N; [|by intros [= <- <-]].
  destruct (match r with [] => _ | c :: r' => _ end) as [sgn r1] eqn:Hsgn.
  assert (List.length r1 ≤ List.length r) as Hr1.
  { destruct r as [|c r']; [by injection Hsgn as <- <-|].
    destruct (_ || _)%N; injection Hsgn as <- <-; simpl; lia. }
  destruct (span_digits r1) as [ds rest'] eqn:Hs.
  apply span_digits_length in Hs.
  destruct ds; intros [= <- <-]; simpl in *; lia.
Qed.

Lemma match_number_length (s : list ascii) (v : json) (r : list ascii) :
  match_number s = Some (v, r) → List.length r < List.length s.
Proof.
  unfold match_number.
  destruct (number_sign s) as [neg s1] eqn:Hsign.
  assert (List.length s1 ≤ List.length s) as Hs1.
  { unfold number_sign in Hsign. destruct s as [|c s']; [by injection Hsign as <- <-|].
    destruct (code c =? 45)%N; injection Hsign as <- <-; simpl; lia. }
  destruct (number_int s1) as [[ip s2]|] eqn:Hint; [|done].
  assert (List.length s2 < List.length s1) as Hs2.
  { unfold number_int in Hint. destruct s1 as [|c s1']; [done|].
    destruct (is_digit c) eqn:Hd; [|done].
    destruct (code c =? 48)%N.
    - injection Hint as <- <-. simpl. lia.
    - injection Hint as Hint. simpl in Hint. rewrite Hd in Hint.
      destruct (span_digits s1') as [ds rest] eqn:Hsp. injection Hint as <- <-.
      apply span_digits_length in Hsp. simpl. lia. }
  destruct (number_frac s2) as [frac s3] eqn:Hfrac.
  destruct (number_exp s3) as [exp s4] eqn:Hexp.
  apply number_frac_length in Hfrac. apply number_exp_length in Hexp.
  destruct frac, exp; intros [= <- <-]; lia.
Qed.

Lemma scan_atom_length (s : list ascii) (v : json) (r : list ascii) :
  scan_atom s = Some (v, r) → List.length r < List.length s.
Proof.
  unfold scan_atom, scan_constant.
  repeat (match goal with
          | |- context [starts_with ?p s] =>
              let H := fresh "H" in
              destruct (starts_with p s) eqn:H;
              [apply starts_with_length in H; simpl in H; intros [= <- <-]; lia|]
          end).
  destruct (match_number s) as [[v' r']|] eqn:Hn.
  - intros [= <- <-]. by apply match_number_length in Hn.
  - repeat (match goal with
          | |- context [starts_with ?p s] =>
              let H := fresh "H" in
              destruct (starts_with p s) eqn:H;
              [apply starts_with_length in H; simpl in H; intros [= <- <-]; lia|]
          end).
    done.
Qed.

Lemma scanstring_length (n : nat) :
  ∀ s acc str r, List.length s ≤ n →
    scanstring s acc = Some (str, r) → List.length r < List.length s.
Proof.
  induction n as [|n IH]; intros s acc str r Hn.
  - destruct s; [done | simpl in Hn; lia].
  - destruct s as [|c s]; [done|]. cbn [scanstring].
    destruct (code c =? 34)%N; [intros [= _ <-]; simpl; lia|].
    destruct (code c <? 32)%N; [done|].
    destruct (code c =? 92)%N.
    2:{ intros H. apply IH in H; simpl in *; lia. }
    destruct s as [|e r1]; [done|].
    destruct (code e =? 117)%N.
    2:{ destruct (backslash e); [|done]. intros H. apply IH in H; simpl in *; lia. }
    destruct r1 as [|h1 [|h2 [|h3 [|h4 r2]]]]; try done.
    destruct (decode_uXXXX h1 h2 h3 h4) as [uni|]; [|done].
    destruct r2 as [|b [|u [|g1 [|g2 [|g3 [|g4 r3]]]]]];
      try (intros H; apply IH in H; simpl in *; lia).
    destruct (if is_high_surrogate uni then _ else _) as [[uni2 ?]|];
      intros H; apply IH in H; simpl in *; lia.
Qed.

Lemma skip_ws_cons_length (s r : list ascii) (c : ascii) :
  skip_ws s = c :: r → S (List.length r) ≤ List.length s.
Proof. intros H. pose proof (skip_ws_length s) as Hl. rewrite H in Hl. done. Qed.

Lemma scan_once_length (fuel : nat) :
  (∀ s v r, scan_once fuel s = Some (v, r) → List.length r < List.length s)
  ∧ (∀ acc s v r, array_items fuel acc s = Some (v, r) → List.length r < List.length s)
  ∧ (∀ acc s v r, object_items fuel acc s = Some (v, r) → List.length r < List.length s).
Proof.
  induction fuel as [|fuel (IHs & IHa & IHo)]; [done|].
  assert (Hs : ∀ s v r, scan_once (S fuel) s = Some (v, r) → List.length r < List.length s).
  { intros s v r. cbn [scan_once]. destruct s as [|c s]; [done|].
    destruct (code c =? 34)%N.
    { destruct (scanstring s []) as [[str r']|] eqn:Hstr; [|done].
      intros [= <- <-]. apply (scanstring_length _ _ _ _ _ (le_n _)) in Hstr. simpl. lia. }
    destruct (code c =? 123)%N.
    { destruct (skip_ws s) as [|c1 r2] eqn:Hws; [done|].
      apply skip_ws_cons_length in Hws.
      destruct (code c1 =? 125)%N; [intros [= <- <-]; simpl; lia|].
      destruct (code c1 =? 34)%N; [|done].
      intros H. apply IHo in H. simpl. lia. }
    destruct (code c =? 91)%N.
    { destruct (skip_ws s) as [|c1 r2] eqn:Hws; [done|].
      apply skip_ws_cons_length in Hws.
      destruct (code c1 =? 93)%N; [intros [= <- <-]; simpl; lia|].
      intros H. apply IHa in H. simpl in *. lia. }
    apply scan_atom_length. }
  split; [exact Hs|]. split.
  - intros acc s v r. cbn [array_items].
    destruct (scan_once fuel s) as [[v' r']|] eqn:Hv; [|done].
    apply IHs in Hv.
    destruct (skip_ws r') as [|c r2] eqn:Hws; [done|].
    apply skip_ws_cons_length in Hws.
    destruct (code c =? 93)%N; [intros [= <- <-]; lia|].
    destruct (code c =? 44)%N; [|done].
    intros H. apply IHa in H. pose proof (skip_ws_length r2) as Hr2. lia.
  - intros acc s v r. cbn [object_items].
    destruct (scanstring s []) as [[key r']|] eqn:Hstr; [|done].
    apply (scanstring_length _ _ _ _ _ (le_n _)) in Hstr.
    destruct (skip_ws r') as [|c r2] eqn:Hws; [done|].
    apply skip_ws_cons_length in Hws.
    destruct (code c =? 58)%N; [|done].
    destruct (scan_once fuel (skip_ws r2)) as [[v' r3]|] eqn:Hv; [|done].
    apply IHs in Hv. pose proof (skip_ws_length r2) as Hr2.
    destruct (skip_ws r3) as [|c2 r5] eqn:Hws3; [done|].
    apply skip_ws_cons_length in Hws3.
    destruct (code c2 =? 125)%N; [intros [= <- <-]; lia|].
    destruct (code c2 =? 44)%N; [|done].
    destruct (skip_ws r5) as [|c3 r6] eqn:Hws5; [done|].
    apply skip_ws_cons_length in Hws5.
    destruct (code c3 =? 34)%N; [|done].
    intros H. apply IHo in H. lia.
Qed.

Lemma fuel_stable_all (n : nat) : ∀ s, List.length s ≤ n → fuel_stable s.
Proof.
  induction n as [|n IH]; intros s Hn.
  - destruct s; [|simpl in Hn; lia]. repeat split.
    + intros [|f1] [|f2]; simpl; (lia || done).
    + intros [|f1] [|f2] acc; simpl; try lia. intros _ _. by destruct f1, f2.
    + intros [|f1] [|f2] acc; simpl; (lia || done).
  - assert (Hs : ∀ f1 f2, 2 * List.length s + 1 ≤ f1 → 2 * List.length s + 1 ≤ f2 →
                   scan_once f1 s = scan_once f2 s).
    { intros [|f1] [|f2] H1 H2; try lia. cbn [scan_once].
      destruct s as [|c s]; [done|]. simpl in Hn, H1, H2.
      destruct (code c =? 34)%N; [done|].
      destruct (code c =? 123)%N.
      { destruct (skip_ws s) as [|c1 r2] eqn:Hws; [done|].
        apply skip_ws_cons_length in Hws.
        destruct (code c1 =? 125)%N; [done|].
        destruct (code c1 =? 34)%N; [|done].
        apply (IH r2); lia. }
      destruct (code c =? 91)%N; [|done].
      destruct (skip_ws s) as [|c1 r2] eqn:Hws; [done|].
      apply skip_ws_cons_length in Hws.
      destruct (code c1 =? 93)%N; [done|].
      apply (IH (c1 :: r2)); simpl; lia. }
    split; [exact Hs|]. split.
    + intros [|f1] [|f2] acc H1 H2; try lia. cbn [array_items].
      rewrite (Hs f1 f2) by lia.
      destruct (scan_once f2 s) as [[v r]|] eqn:Hv; [|done].
      apply scan_once_length in Hv.
      destruct (skip_ws r) as [|c r2] eqn:Hws; [done|].
      apply skip_ws_cons_length in Hws.
      destruct (code c =? 93)%N; [done|].
      destruct (code c =? 44)%N; [|done].
      pose proof (skip_ws_length r2) as Hr2.
      apply (IH (skip_ws r2)); lia.
    + intros [|f1] [|f2] acc H1 H2; try lia. cbn [object_items].
      destruct (scanstring s []) as [[key r]|] eqn:Hstr; [|done].
      apply (scanstring_length _ _ _ _ _ (le_n _)) in Hstr.
      destruct (skip_ws r) as [|c r2] eqn:Hws; [done|].
      apply skip_ws_cons_length in Hws.
      destruct (code c =? 58)%N; [|done].
      pose proof (skip_ws_length r2) as Hr2.
      assert (scan_once f1 (skip_ws r2) = scan_once f2 (skip_ws r2)) as ->
        by (apply (IH (skip_ws r2)); lia).
      destruct (scan_once f2 (skip_ws r2)) as [[v r3]|] eqn:Hv; [|done].
      apply scan_once_length in Hv.
      destruct (skip_ws r3) as [|c2 r5] eqn:Hws3; [done|].
      apply skip_ws_cons_length in Hws3.
      destruct (code c2 =? 125)%N; [done|].
      destruct (code c2 =? 44)%N; [|done].
      destruct (skip_ws r5) as [|c3 r6] eqn:Hws5; [done|].
      apply skip_ws_cons_length in Hws5.
      destruct (code c3 =? 34)%N; [|done].
      apply (IH r6); lia.
Qed.

(** More fuel than [json_loads] gives changes nothing. *)
Lemma json_loads_fuel (s : string) (fuel : nat) :
  2 * List.length (list_ascii_of_string s) + 2 ≤ fuel →
  scan_once fuel (skip_ws (list_ascii_of_string s))
  = scan_once (2 * List.length (list_ascii_of_string s) + 2)
      (skip_ws (list_ascii_of_string s)).
Proof.
  intros H. pose proof (skip_ws_length (list_ascii_of_string s)) as Hl.
  apply (fuel_stable_all _ _ (le_n _)); lia.
Qed.

(** ** How the resolvers and the login handler end *)

Lemma state_eta (s : state) :
  State (user_storage s) (tab_storage s) (local_storage s) (trace s) = s.
Proof. by destruct s. Qed.

Lemma get_user_from_tab (ext : Externals) (s : state) (v : pyval) :
  tab_storage s !! "user" = Some v → get_user ext s = (s, Return v).
Proof.
  intros H. unfold get_user. unfold bind at 1. simpl. rewrite H.
  unfold tab_getitem. by rewrite H.
Qed.

Lemma get_user_from_token_raise_eq
    (ext : Externals) (s : state) (tokens : pyval) (dk : json) (e : exn) :
  tab_storage s !! "user" = None →
  user_storage s !! "tokens" = Some tokens →
  (LocalStorage.get_item "device_key" s).2 = Return dk →
  OtfUser_from_token ext tokens dk = Raise e →
  get_user ext s =
    if is_TokenVerificationException e || is_KeyError e
    then (State ∅ ∅ ∅
            (trace s ++ [ExternalCall "OtfUser.from_token";
                         Notify "Your token has expired, please log in again" "negative";
                         UserClear; TabClear; LocalClear; Navigate (PStr "/login")]),
          Raise await_TypeError)
    else (State (user_storage s) (tab_storage s) (local_storage s)
                (trace s ++ [ExternalCall "OtfUser.from_token"]),
          Raise e).
Proof.
  intros Htab Htok Hdk Hext.
  destruct (get_item_returns "device_key" s) as [v Hv].
  rewrite Hv in Hdk. simpl in Hdk. injection Hdk as ->.
  unfold get_user. unfold bind at 1. simpl. rewrite Htab.
  unfold try_except. unfold bind at 1. rewrite Hv.
  unfold bind at 1, user_getitem. rewrite Htok.
  run_m. rewrite Hext. run_m.
  destruct (is_TokenVerificationException e || is_KeyError e); [|done].
  run_m. by rewrite <- ?app_assoc.
Qed.

(** How a run of [get_user] can have ended. *)
Lemma get_user_inv (ext : Externals) (s s' : state) (o : outcome pyval) :
  get_user ext s = (s', o) →
  match o with
  | Return v => tab_storage s' = <["user" := v]> (tab_storage s) ∧ quiet s s'
  | Raise e =>
      (e = await_TypeError ∧ logged_out_by_get_user s s')
      ∨ (is_TokenVerificationException e = false ∧ is_KeyError e = false
         ∧ tab_storage s' = tab_storage s ∧ quiet s s')
  end.
Proof.
  intros Hrun.
  destruct (tab_storage s !! "user") as [v|] eqn:Htab.
  { rewrite (get_user_from_tab ext s v Htab) in Hrun. injection Hrun as <- <-.
    split; [by rewrite insert_id|].
    unfold quiet. split_and!; try done. exists []. by rewrite app_nil_r. }
  destruct (get_item_returns "device_key" s) as [dk Hdk].
  destruct (user_storage s !! "tokens") as [tokens|] eqn:Htok.
  2:{ rewrite get_user_missing_tokens_eq in Hrun by done. injection Hrun as <- <-.
      left. split; [done|].
      unfold logged_out_by_get_user. simpl. split_and!; try done.
      - by rewrite active_route_app.
      - eexists. split; [reflexivity | done]. }
  destruct (OtfUser_from_token ext tokens dk) as [user|e] eqn:Hext.
  { rewrite (get_user_from_tokens_eq ext s tokens dk user) in Hrun by (by rewrite ?Hdk).
    injection Hrun as <- <-. simpl. split; [done|].
    unfold quiet. simpl. split_and!; try done.
    eexists. split; [reflexivity | done]. }
  rewrite (get_user_from_token_raise_eq ext s tokens dk e) in Hrun by (by rewrite ?Hdk).
  destruct (is_TokenVerificationException e || is_KeyError e) eqn:Hh.
  - injection Hrun as <- <-. left. split; [done|].
    unfold logged_out_by_get_user. simpl. split_and!; try done.
    + by rewrite active_route_app.
    + eexists. split; [reflexivity | done].
  - injection Hrun as <- <-. right. apply orb_false_elim in Hh as [H1 H2].
    unfold quiet. simpl. split_and!; try done.
    eexists. split; [reflexivity | done].
Qed.

(** X1: [get_user] ends in one of three ways.  It returns a value, which is
    then under ["user"] in the tab tier, with the user tier and the browser
    as they were, nothing shown and no navigation.  Or it raises the
    [TypeError] of [await logout()], after its handler showed the
    notification, cleared all three tiers and sent the client to the login
    page.  Or it raises an exception of [OtfUser.from_token] that is neither
    a token-verification failure nor a [KeyError], with every tier as it
    was. *)
Theorem get_user_outcomes (ext : Externals) (s : state) :
  let r := get_user ext s in
  (∃ v, r.2 = Return v
        ∧ tab_storage r.1 = <["user" := v]> (tab_storage s)
        ∧ quiet s r.1)
  ∨ (r.2 = Raise await_TypeError ∧ logged_out_by_get_user s r.1)
  ∨ (∃ e, r.2 = Raise e
          ∧ is_TokenVerificationException e = false ∧ is_KeyError e = false
          ∧ tab_storage r.1 = tab_storage s
          ∧ quiet s r.1).
Proof.
  cbv zeta.
  destruct (get_user ext s) as [s' [v|e]] eqn:Hrun;
    pose proof (get_user_inv ext s s' _ Hrun) as Hinv; simpl in *.
  - left. exists v. by destruct Hinv.
  - destruct Hinv as [[-> Hout]|(Htve & Hkey & Htab & Hquiet)].
    + right; left. done.
    + right; right. exists e. done.
Qed.

(** X16: a value that [get_user] returns is cached: asking again, whatever
    the service would answer now, returns the same value from the tab tier
    with nothing changed and no token checked. *)
Theorem get_user_returns_cached_user
    (ext ext' : Externals) (s s' : state) (v : pyval) :
  get_user ext s = (s', Return v) →
  tab_storage s' !! "user" = Some v
  ∧ get_user ext' s' = (s', Return v).
Proof.
  intros Hrun.
  destruct (get_user_inv ext s s' _ Hrun) as [Htab _].
  assert (Hin : tab_storage s' !! "user" = Some v)
    by (rewrite Htab; apply lookup_insert_eq).
  split; [done|]. by apply get_user_from_tab.
Qed.

Lemma get_otf_hydrate_raise_eq
    (ext : Externals) (s : state) (blob dk : pyval) (e : exn) :
  tab_storage s !! "otf" = None →
  user_storage s !! "otf_hydration_dict" = Some blob →
  tab_storage s !! "device_key" = Some dk →
  Otf_hydrate ext blob dk = Raise e →
  get_otf ext s =
    (State (user_storage s) (tab_storage s) (local_storage s)
           (trace s ++ [ExternalCall "Otf.hydrate"]),
     Raise e).
Proof.
  intros Hotf Hblob Hdk Hext.
  unfold get_otf. unfold bind at 1. simpl. rewrite Hotf, Hblob, Hdk.
  rewrite !bool_decide_eq_true_2 by eauto. simpl.
  unfold bind at 1, user_getitem. rewrite Hblob.
  unfold bind at 1, tab_getitem. rewrite Hdk.
  run_m. by rewrite Hext.
Qed.

Lemma hydration_guard_cases (s : state) :
  (∃ blob dk, user_storage s !! "otf_hydration_dict" = Some blob
              ∧ tab_storage s !! "device_key" = Some dk)
  ∨ (user_storage s !! "otf_hydration_dict" = None
     ∨ tab_storage s !! "device_key" = None).
Proof.
  destruct (user_storage s !! "otf_hydration_dict") as [blob|]; [|by right; left].
  destruct (tab_storage s !! "device_key") as [dk|]; [|by right; right].
  left. eauto.
Qed.

(** Where a value that [get_otf] returned came from. *)
Lemma get_otf_return_inv (ext : Externals) (s s' : state) (v : pyval) :
  get_otf ext s = (s', Return v) →
  tab_storage s' !! "otf" = Some v
  ∨ (v = PNone
     ∧ tab_storage s' !! "otf" = None
     ∧ active_route (trace s') = Some (PStr "/login")
     ∧ ∃ u, tab_storage s' !! "user" = Some u ∧ truthy u = false).
Proof.
  intros Hrun.
  destruct (tab_storage s !! "otf") as [v0|] eqn:Hotf.
  { rewrite (get_otf_from_tab ext s v0 Hotf) in Hrun. injection Hrun as <- <-.
    by left. }
  destruct (hydration_guard_cases s) as [(blob & dk & Hblob & Hdk)|Hguard].
  { destruct (Otf_hydrate ext blob dk) as [otf|e] eqn:Hext.
    - rewrite (get_otf_hydrate_eq ext s blob dk otf) in Hrun by done.
      injection Hrun as <- <-. left. apply lookup_insert_eq.
    - by rewrite (get_otf_hydrate_raise_eq ext s blob dk e) in Hrun. }
  rewrite get_otf_falls_to_get_user in Hrun by done.
  destruct (get_user ext s) as [s1 [u|e]] eqn:Hget; [|done].
  destruct (get_user_inv ext s s1 _ Hget) as [Htab _].
  destruct (truthy u) eqn:Htruthy.
  - destruct (Otf_create ext u) as [otf|e]; [|done].
    rewrite add_otf_to_storage_eq in Hrun. injection Hrun as <- <-. left.
    apply lookup_insert_eq.
  - injection Hrun as <- <-. right. simpl. split_and!; try done.
    + rewrite Htab. by rewrite lookup_insert_ne.
    + by rewrite active_route_app.
    + exists u. split; [|done]. rewrite Htab. apply lookup_insert_eq.
Qed.

(** X2: a value that [get_otf] returns is the one under ["otf"] in the tab
    tier, and asking again returns it with nothing changed; the only other
    value it returns is [None], after sending the client to the login page,
    and only when the tab tier holds a user that counts as false. *)
Theorem get_otf_returns_cached_session
    (ext : Externals) (s s' : state) (v : pyval) :
  get_otf ext s = (s', Return v) →
  (tab_storage s' !! "otf" = Some v ∧ get_otf ext s' = (s', Return v))
  ∨ (v = PNone
     ∧ tab_storage s' !! "otf" = None
     ∧ active_route (trace s') = Some (PStr "/login")
     ∧ ∃ u, tab_storage s' !! "user" = Some u ∧ truthy u = false).
Proof.
  intros Hrun.
  destruct (get_otf_return_inv ext s s' v Hrun) as [Htab|Hnone].
  - left. split; [done|]. by apply get_otf_from_tab.
  - by right.
Qed.

(** X3: when [get_otf] raises, the tab tier holds no session afterwards, and
    the user tier and the browser are either as they were or, after the
    handler of [get_user], empty like the tab tier: a failed resolution
    stores neither a session nor a hydration blob. *)
Theorem get_otf_failure_stores_no_session
    (ext : Externals) (s s' : state) (e : exn) :
  get_otf ext s = (s', Raise e) →
  tab_storage s' !! "otf" = None
  ∧ ((user_storage s' = user_storage s ∧ local_storage s' = local_storage s)
     ∨ (e = await_TypeError ∧ logged_out_by_get_user s s')).
Proof.
  intros Hrun.
  destruct (tab_storage s !! "otf") as [v0|] eqn:Hotf.
  { by rewrite (get_otf_from_tab ext s v0 Hotf) in Hrun. }
  destruct (hydration_guard_cases s) as [(blob & dk & Hblob & Hdk)|Hguard].
  { destruct (Otf_hydrate ext blob dk) as [otf|e'] eqn:Hext.
    - by rewrite (get_otf_hydrate_eq ext s blob dk otf) in Hrun.
    - rewrite (get_otf_hydrate_raise_eq ext s blob dk e') in Hrun by done.
      injection Hrun as <- <-. simpl. split; [done|]. by left. }
  rewrite get_otf_falls_to_get_user in Hrun by done.
  destruct (get_user ext s) as [s1 [u|e1]] eqn:Hget.
  - destruct (get_user_inv ext s s1 _ Hget) as (Htab & Huq & Hlq & _).
    destruct (truthy u); [|done].
    destruct (Otf_create ext u) as [otf|e']; [done|].
    injection Hrun as <- <-. simpl. split; [|by left].
    rewrite Htab. by rewrite lookup_insert_ne.
  - injection Hrun as <- <-.
    destruct (get_user_inv ext s s1 _ Hget)
      as [[-> Hout]|(_ & _ & Htab & Huq & Hlq & _)].
    + split; [|by right]. destruct Hout as (_ & -> & _). done.
    + split; [by rewrite Htab | by left].
Qed.

(** [try_login] for a user already marked authenticated. *)
Lemma try_login_authenticated_eq
    (ext : Externals) (s : state) (username password : string) :
  truthy (default PNone (user_storage s !! "authenticated")) = true →
  try_login ext username password s = (s, Return tt).
Proof.
  intros Hauth. unfold try_login, try_except, try_login_body.
  run_m. by rewrite Hauth.
Qed.

(** [try_login] when the login call raises a token-verification failure. *)
Lemma try_login_token_failure_eq
    (ext : Externals) (s : state) (username password : string) :
  truthy (default PNone (user_storage s !! "authenticated")) = false →
  OtfUser_login ext username password = Raise TokenVerificationException →
  try_login ext username password s =
    (State (<["authenticated" := PBool false]> (user_storage s))
           (tab_storage s) (local_storage s)
           (trace s ++ [ExternalCall "OtfUser.login";
                        Notify "Your token has expired, please log in again" "negative";
                        UserWrite "authenticated"]),
     Return tt).
Proof.
  intros Hauth Hlogin. unfold try_login, try_except, try_login_body.
  run_m. rewrite Hauth. run_m. rewrite Hlogin. run_m.
  by rewrite <- ?app_assoc.
Qed.

(** X4: whatever the service answers, [try_login] returns without raising,
    calls [OtfUser.login] at most once, and never navigates: the route is
    the one it was. *)
Theorem try_login_never_raises_nor_navigates
    (ext : Externals) (s : state) (username password : string) :
  let r := try_login ext username password s in
  r.2 = Return tt
  ∧ active_route (trace r.1) = active_route (trace s)
  ∧ ∃ tr, trace r.1 = trace s ++ tr
      ∧ navigations tr = []
      ∧ count_calls "OtfUser.login" tr ≤ 1.
Proof.
  cbv zeta.
  destruct (truthy (default PNone (user_storage s !! "authenticated"))) eqn:Hauth.
  { rewrite try_login_authenticated_eq by done. simpl.
    split_and!; try done. exists []. rewrite app_nil_r.
    split_and!; [done | done | unfold count_calls; simpl; lia]. }
  destruct (OtfUser_login ext username password) as [user|e] eqn:Hlogin.
  { rewrite (try_login_accepted_eq ext s username password user) by done. simpl.
    split_and!; try done; [by rewrite active_route_app|].
    eexists. split; [reflexivity|]. split; [done | unfold count_calls; simpl; lia]. }
  destruct (is_TokenVerificationException e) eqn:He.
  - destruct e; try done.
    rewrite try_login_token_failure_eq by done. simpl.
    split_and!; try done; [by rewrite active_route_app|].
    eexists. split; [reflexivity|]. split; [done | unfold count_calls; simpl; lia].
  - assert (e ≠ TokenVerificationException) as Hne by (by intros ->).
    rewrite (try_login_rejected_eq ext s username password e) by done.
    simpl. split_and!; try done; [by rewrite active_route_app|].
    eexists. split; [reflexivity|]. split; [done | unfold count_calls; simpl; lia].
Qed.

(** X5: when the login call fails the verification of its tokens,
    [try_login] sets [authenticated] to [False] in the user tier, shows the
    notification of an expired token, changes nothing else, and the login
    page then shows its form. *)
Theorem try_login_token_failure_flips_flag
    (ext : Externals) (s : state) (username password : string) :
  truthy (default PNone (user_storage s !! "authenticated")) = false →
  OtfUser_login ext username password = Raise TokenVerificationException →
  let s' := (try_login ext username password s).1 in
  user_storage s' = <["authenticated" := PBool false]> (user_storage s)
  ∧ tab_storage s' = tab_storage s
  ∧ local_storage s' = local_storage s
  ∧ (∃ tr, trace s' = trace s ++ tr
       ∧ notifications tr
           = [Notify "Your token has expired, please log in again" "negative"])
  ∧ (login s').2 = Return None.
Proof.
  intros Hauth Hlogin. rewrite try_login_token_failure_eq by done. simpl.
  split_and!; try done.
  - eexists. split; [reflexivity | done].
  - unfold login. run_m. by rewrite lookup_insert_eq.
Qed.

(** X6: after a login that the service accepted, a second click on the
    button changes nothing and calls nothing, the login page answers with
    the redirect to [/upcoming_classes], and [get_user] returns the user from
    the tab tier, whatever the service would answer now. *)
Theorem try_login_twice
    (ext ext' : Externals) (s : state) (username password username' password' : string)
    (user : OtfUser) :
  truthy (default PNone (user_storage s !! "authenticated")) = false →
  OtfUser_login ext username password = Return user →
  let s' := (try_login ext username password s).1 in
  try_login ext' username' password' s' = (s', Return tt)
  ∧ login s' = (s', Return (Some "/upcoming_classes"))
  ∧ get_user ext' s' = (s', Return (PUser user)).
Proof.
  intros Hauth Hlogin.
  rewrite (try_login_accepted_eq ext s username password user) by done. simpl.
  split_and!.
  - apply try_login_authenticated_eq. simpl.
    by rewrite lookup_insert_ne, lookup_insert_eq by done.
  - unfold login. run_m. by rewrite lookup_insert_ne, lookup_insert_eq by done.
  - apply get_user_from_tab. simpl. apply lookup_insert_eq.
Qed.



(** X8: after [logout], the next [get_otf] finds no tokens: it shows the
    notification of an expired token, and it and both listing pages end in
    the [TypeError] of [await logout()], with every tier still empty; the
    login page shows its form. *)
Theorem get_otf_after_logout (ext : Externals) (s : state) :
  let s0 := (logout s).1 in
  let r := get_otf ext s0 in
  r.2 = Raise await_TypeError
  ∧ logged_out_by_get_user s0 r.1
  ∧ (classes ext s0).2 = Raise await_TypeError
  ∧ (upcoming_classes ext s0).2 = Raise await_TypeError
  ∧ (login s0).2 = Return None.
Proof.
  cbv zeta. rewrite logout_eq. cbn [fst].
  set (s0 := State ∅ ∅ ∅ _).
  assert (Hget : get_otf ext s0 =
                 (State ∅ ∅ ∅
                    (trace s0 ++ [Notify "Your token has expired, please log in again" "negative";
                                  UserClear; TabClear; LocalClear; Navigate (PStr "/login")]),
                  Raise await_TypeError)).
  { rewrite get_otf_falls_to_get_user by (by left || done).
    by rewrite get_user_missing_tokens_eq. }
  split_and!.
  - by rewrite Hget.
  - rewrite Hget. unfold logged_out_by_get_user. simpl. split_and!; try done.
    + by rewrite active_route_app.
    + eexists. split; [reflexivity | done].
  - unfold classes. unfold bind at 1. by rewrite Hget.
  - unfold upcoming_classes. unfold bind at 1. by rewrite Hget.
  - done.
Qed.

(** X9: what [add_user_to_storage] and [add_otf_to_storage] store is what
    the resolvers serve: [get_user] returns that user and [get_otf] that
    session, from the tab tier, with nothing changed and nothing called. *)
Theorem stored_objects_are_served
    (ext ext' : Externals) (s : state) (user : OtfUser) (otf : Otf) :
  (let s' := (add_user_to_storage ext user s).1 in
   get_user ext' s' = (s', Return (PUser user)))
  ∧ (let s' := (add_otf_to_storage ext otf s).1 in
     get_otf ext' s' = (s', Return (POtf otf))).
Proof.
  split; cbv zeta.
  - rewrite add_user_to_storage_eq. apply get_user_from_tab. apply lookup_insert_eq.
  - rewrite add_otf_to_storage_eq. apply get_otf_from_tab. apply lookup_insert_eq.
Qed.

(** X14: after either logout button the user tier has no ["username"], and
    [main_page] raises [KeyError] on it. *)
Theorem main_page_after_logout (s : state) :
  (main_page (logout s).1).2 = Raise (KeyError "username")
  ∧ (main_page (main_page_logout_click s).1).2 = Raise (KeyError "username").
Proof. by rewrite logout_eq, main_page_logout_click_eq. Qed.

Lemma keeps_bind {A B} (m : M A) (k : A → M B) :
  keeps_tab_objects m → (∀ a, keeps_tab_objects (k a)) → keeps_tab_objects (bind m k).
Proof.
  intros Hm Hk s H. unfold bind. specialize (Hm s H).
  destruct (m s) as [s' [a|e]]; simpl in *; [by apply Hk | done].
Qed.

Lemma keeps_try_except {A} (body : M A) (handlers : exn → option (M A)) :
  keeps_tab_objects body → (∀ e h, handlers e = Some h → keeps_tab_objects h) →
  keeps_tab_objects (try_except body handlers).
Proof.
  intros Hb Hh s H. unfold try_except. specialize (Hb s H).
  destruct (body s) as [s' [a|e]]; simpl in *; [done|].
  destruct (handlers e) as [h|] eqn:He; [by eapply Hh | done].
Qed.

Lemma keeps_same_tab {A} (m : M A) :
  (∀ s, tab_storage (m s).1 = tab_storage s) → keeps_tab_objects m.
Proof. intros Hm s H. unfold tab_objects. by rewrite Hm. Qed.

Lemma keeps_tab_setitem_user (u : OtfUser) : keeps_tab_objects (tab_setitem "user" (PUser u)).
Proof.
  intros s [Hu Ho]. split; simpl; intros v.
  - rewrite lookup_insert_eq. intros [= <-]. eauto.
  - rewrite lookup_insert_ne by done. apply Ho.
Qed.

Lemma keeps_tab_setitem_otf (o : Otf) : keeps_tab_objects (tab_setitem "otf" (POtf o)).
Proof.
  intros s [Hu Ho]. split; simpl; intros v.
  - rewrite lookup_insert_ne by done. apply Hu.
  - rewrite lookup_insert_eq. intros [= <-]. eauto.
Qed.

Lemma keeps_tab_clear : keeps_tab_objects tab_clear.
Proof. intros s _. split; simpl; intros v; by rewrite lookup_empty. Qed.

Ltac keeps_tac :=
  repeat first
    [ apply keeps_bind; [|intros ?]
    | apply keeps_try_except; [|intros ? ? ?]
    | apply keeps_tab_setitem_user
    | apply keeps_tab_setitem_otf
    | apply keeps_tab_clear
    | apply keeps_same_tab; intros ?;
      unfold_prims; unfold LocalStorage.get_item, LocalStorage.get_all_items;
      simpl; repeat case_match; reflexivity ].

Lemma keeps_user_update items : keeps_tab_objects (user_update items).
Proof.
  induction items as [|[k v] items IH]; simpl; [keeps_tac|].
  apply keeps_bind; [keeps_tac | done].
Qed.

Lemma keeps_logout : keeps_tab_objects logout.
Proof. unfold logout, clear_all_storage. keeps_tac. Qed.

Lemma keeps_add_user_to_storage ext u : keeps_tab_objects (add_user_to_storage ext u).
Proof. unfold add_user_to_storage. keeps_tac. Qed.

Lemma keeps_add_otf_to_storage ext o : keeps_tab_objects (add_otf_to_storage ext o).
Proof. unfold add_otf_to_storage. keeps_tac. Qed.

Lemma keeps_get_user ext : keeps_tab_objects (get_user ext).
Proof.
  unfold get_user. apply keeps_bind; [keeps_tac|]. intros s.
  destruct (tab_storage s !! "user"); [keeps_tac|].
  apply keeps_try_except; [keeps_tac|].
  intros e h He. destruct (_ || _); [|done]. injection He as <-.
  unfold logout, clear_all_storage. keeps_tac.
Qed.

Lemma keeps_get_otf ext : keeps_tab_objects (get_otf ext).
Proof.
  unfold get_otf. apply keeps_bind; [keeps_tac|]. intros s.
  destruct (tab_storage s !! "otf"); [keeps_tac|].
  destruct (_ && _).
  - keeps_tac.
  - apply keeps_bind; [apply keeps_get_user|]. intros u.
    destruct (truthy u); keeps_tac.
Qed.

Lemma keeps_run ext a : ∀ s, tab_objects s → tab_objects (run ext a s).
Proof.
  destruct a; simpl.
  - change (keeps_tab_objects (store_referrer_path path)). unfold store_referrer_path. keeps_tac.
  - change (keeps_tab_objects main_page). unfold main_page. keeps_tac.
  - change (keeps_tab_objects login). unfold login. keeps_tac.
  - change (keeps_tab_objects (classes ext)). unfold classes.
    apply keeps_bind; [apply keeps_get_otf|]. intros [j|u|o]; keeps_tac.
  - change (keeps_tab_objects (upcoming_classes ext)). unfold upcoming_classes.
    apply keeps_bind; [apply keeps_get_otf|]. intros [j|u|o]; keeps_tac.
  - apply keeps_logout.
  - change (keeps_tab_objects main_page_logout_click). unfold main_page_logout_click. keeps_tac.
  - change (keeps_tab_objects (try_login ext username password)).
    unfold try_login, try_login_body. apply keeps_try_except.
    + apply keeps_bind; [keeps_tac|]. intros a. destruct (negb _); [|keeps_tac].
      apply keeps_bind; [keeps_tac|]. intros u.
      apply keeps_bind; [apply keeps_user_update|]. intros _.
      apply keeps_bind; [apply keeps_add_user_to_storage|]. intros _. keeps_tac.
    + intros e h He. destruct (is_TokenVerificationException e); injection He as <-; keeps_tac.
  - apply keeps_get_otf.
  - apply keeps_get_user.
  - apply keeps_logout.
  - apply keeps_add_user_to_storage.
  - apply keeps_add_otf_to_storage.
  - change (keeps_tab_objects clear_all_storage). unfold clear_all_storage. keeps_tac.
  - change (keeps_tab_objects (LocalStorage.set_item ext key value)). keeps_tac.
  - change (keeps_tab_objects (LocalStorage.get_item key)). keeps_tac.
  - change (keeps_tab_objects LocalStorage.get_all_items). keeps_tac.
  - change (keeps_tab_objects LocalStorage.clear). keeps_tac.
Qed.

Lemma reachable_tab_objects (s : state) : reachable s → tab_objects s.
Proof.
  induction 1 as [s [Htab _]|ext a s _ IH].
  - split; intros v; by rewrite Htab, lookup_empty.
  - by apply keeps_run.
Qed.

(** X10: from a fresh tab, [get_otf] never returns [None]: a value it returns
    is a session, and that session is in the tab tier. *)
Theorem get_otf_never_returns_None (ext : Externals) (s s' : state) (v : pyval) :
  reachable s →
  get_otf ext s = (s', Return v) →
  ∃ otf, v = POtf otf ∧ tab_storage s' !! "otf" = Some (POtf otf).
Proof.
  intros Hreach Hrun.
  assert (Hobj : tab_objects s') by
    (change s' with (s', Return v).1; rewrite <- Hrun;
     apply keeps_get_otf, reachable_tab_objects, Hreach).
  destruct (get_otf_return_inv ext s s' v Hrun)
    as [Htab|(_ & _ & _ & u & Hu & Hfalse)].
  - destruct Hobj as [_ Ho]. destruct (Ho v Htab) as [otf ->]. eauto.
  - destruct Hobj as [Hobj _]. destruct (Hobj u Hu) as [u' ->]. done.
Qed.

Lemma upcoming_classes_rows_from (bookings : list Booking) (rows : list (list (string * json))) :
  fold_left (fun rows booking => rows ++ [upcoming_classes_row booking]) bookings rows
  = rows ++ map upcoming_classes_row bookings.
Proof.
  revert rows. induction bookings as [|booking bookings IH]; intros rows; simpl.
  - by rewrite app_nil_r.
  - rewrite IH. by rewrite <- app_assoc.
Qed.

(** X11: for a list of N bookings the loop of the bookings page builds N
    rows, the i-th from the i-th booking; the keys of each row are the seven
    fields of the grid's columns, each once, so that every column has an
    entry, and ["id"], ["class_name"] and ["status"] hold the booking's
    identifier, class name and status. *)
Theorem upcoming_classes_rows_one_row_per_booking (bookings : list Booking) :
  List.length (upcoming_classes_rows bookings) = List.length bookings
  ∧ Forall2
      (fun booking row =>
         map fst row ≡ₚ upcoming_classes_column_fields
         ∧ NoDup (map fst row)
         ∧ Forall (fun field => is_Some (dict_get field row)) upcoming_classes_column_fields
         ∧ dict_get "id" row = Some (class_booking_uuid booking)
         ∧ dict_get "class_name" row = Some (otf_class_name booking)
         ∧ dict_get "status" row = Some (status_value booking))
      bookings (upcoming_classes_rows bookings).
Proof.
  unfold upcoming_classes_rows. rewrite upcoming_classes_rows_from. simpl.
  split; [by rewrite List.length_map|].
  induction bookings as [|booking bookings IH]; simpl; constructor; [|done].
  split_and!; try done.
  - symmetry. apply (Permutation_cons_append
                       ["class_name"; "start_date"; "start_time"; "duration";
                        "coach_name"; "status"] "id").
  - apply (bool_decide_unpack _). by vm_compute.
  - repeat constructor; by eexists.
Qed.

(** X7: the login page and the handler of its button read the flag alike:
    the page redirects exactly when [try_login] makes no login call, and
    shows the form exactly when it makes one. *)
Theorem login_page_and_handler_agree
    (ext : Externals) (s : state) (username password : string) :
  let authenticated := truthy (default PNone (user_storage s !! "authenticated")) in
  login s = (s, Return (if authenticated then Some "/upcoming_classes" else None))
  ∧ count_calls "OtfUser.login" (trace (try_login ext username password s).1)
      = count_calls "OtfUser.login" (trace s) + (if authenticated then 0 else 1).
Proof.
  cbv zeta. split.
  - unfold login. run_m.
    destruct (user_storage s !! "authenticated") as [v|]; simpl; by destruct (truthy v) || done.
  - destruct (truthy (default PNone (user_storage s !! "authenticated"))) eqn:Hauth.
    { rewrite try_login_authenticated_eq by done. simpl. lia. }
    destruct (OtfUser_login ext username password) as [user|e] eqn:Hlogin.
    { rewrite (try_login_accepted_eq ext s username password user) by done. simpl.
      by rewrite count_calls_app. }
    destruct (is_TokenVerificationException e) eqn:He.
    + destruct e; try done. rewrite try_login_token_failure_eq by done. simpl.
      by rewrite count_calls_app.
    + assert (e ≠ TokenVerificationException) as Hne by (by intros ->).
      rewrite (try_login_rejected_eq ext s username password e) by done. simpl.
      by rewrite count_calls_app.
Qed.

Lemma get_item_after_set (ext : Externals) (key : string) (v : json) (s' : state) :
  local_storage s' !! key = Some (js_to_string ext v) →
  LocalStorage.get_item key s' =
    (s', Return (default (JStr (js_to_string ext v)) (json_loads (js_to_string ext v)))).
Proof. intros H. unfold LocalStorage.get_item. rewrite H. by destruct (json_loads _). Qed.

(** X12: a device key that is a string inside the limits of [json.loads]
    and not itself a JSON text is read back by [get_item] as it was, after
    [add_user_to_storage] and after [add_otf_to_storage]. *)
Theorem plain_device_key_is_read_back
    (ext : Externals) (s : state) (user : OtfUser) (otf : Otf) (text : string) :
  within_json_limits text →
  json_loads text = None →
  device_key user = JStr text →
  device_key (otf_user otf) = JStr text →
  (LocalStorage.get_item "device_key" (add_user_to_storage ext user s).1).2
    = Return (JStr text)
  ∧ (LocalStorage.get_item "device_key" (add_otf_to_storage ext otf s).1).2
      = Return (JStr text).
Proof.
  intros _ Hplain Hu Ho. split.
  - rewrite add_user_to_storage_eq. cbn [fst].
    rewrite (get_item_after_set ext "device_key" (device_key user))
      by (simpl; apply lookup_insert_eq).
    rewrite Hu. simpl. by rewrite Hplain.
  - rewrite add_otf_to_storage_eq. cbn [fst].
    rewrite (get_item_after_set ext "device_key" (device_key (otf_user otf)))
      by (simpl; apply lookup_insert_eq).
    rewrite Ho. simpl. by rewrite Hplain.
Qed.

(** X13: a device key made of the decimal digits of an integer, at most
    4300 of them, is read back by [get_item] as that integer, not as the
    string, after [add_user_to_storage] and after [add_otf_to_storage]. *)
Theorem numeric_device_key_is_read_back_as_number
    (ext : Externals) (s : state) (user : OtfUser) (otf : Otf) (z : Z) :
  within_json_limits (Z_to_string z) →
  device_key user = JStr (Z_to_string z) →
  device_key (otf_user otf) = JStr (Z_to_string z) →
  (LocalStorage.get_item "device_key" (add_user_to_storage ext user s).1).2
    = Return (JInt z)
  ∧ (LocalStorage.get_item "device_key" (add_otf_to_storage ext otf s).1).2
      = Return (JInt z).
Proof.
  intros _ Hu Ho. split.
  - rewrite add_user_to_storage_eq. cbn [fst].
    rewrite (get_item_after_set ext "device_key" (device_key user))
      by (simpl; apply lookup_insert_eq).
    rewrite Hu. simpl. by rewrite json_loads_Z_to_string.
  - rewrite add_otf_to_storage_eq. cbn [fst].
    rewrite (get_item_after_set ext "device_key" (device_key (otf_user otf)))
      by (simpl; apply lookup_insert_eq).
    rewrite Ho. simpl. by rewrite json_loads_Z_to_string.
Qed.

(** ** Instances of the theorems above *)

Lemma get_otf_returns_cached_session_witness :
  let s' := (get_otf Samples.ext_valid_tokens Samples.tokens_only).1 in
  let v := POtf (Samples.session
                   {| get_tokens := get_tokens Samples.alice; device_key := JNull |}) in
  (tab_storage s' !! "otf" = Some v
   ∧ get_otf Samples.ext_valid_tokens s' = (s', Return v))
  ∨ (v = PNone
     ∧ tab_storage s' !! "otf" = None
     ∧ active_route (trace s') = Some (PStr "/login")
     ∧ ∃ u, tab_storage s' !! "user" = Some u ∧ truthy u = false).
Proof.
  apply (get_otf_returns_cached_session Samples.ext_valid_tokens Samples.tokens_only).
  vm_compute. reflexivity.
Defined.

Lemma get_otf_failure_stores_no_session_witness :
  let s := Samples.referred in
  let s' := (get_otf Samples.ext s).1 in
  tab_storage s' !! "otf" = None
  ∧ ((user_storage s' = user_storage s ∧ local_storage s' = local_storage s)
     ∨ (await_TypeError = await_TypeError ∧ logged_out_by_get_user s s')).
Proof.
  apply (get_otf_failure_stores_no_session Samples.ext Samples.referred).
  vm_compute. reflexivity.
Defined.

Lemma try_login_token_failure_witness :
  let s := Samples.referred in
  let s' := (try_login Cases.ext_login_expired "alice" "correct" s).1 in
  user_storage s' = <["authenticated" := PBool false]> (user_storage s)
  ∧ tab_storage s' = tab_storage s
  ∧ local_storage s' = local_storage s
  ∧ (∃ tr, trace s' = trace s ++ tr
       ∧ notifications tr
           = [Notify "Your token has expired, please log in again" "negative"])
  ∧ (login s').2 = Return None.
Proof.
  apply (try_login_token_failure_flips_flag Cases.ext_login_expired Samples.referred
           "alice" "correct"); reflexivity.
Defined.

Lemma try_login_twice_witness :
  let s' := (try_login Samples.ext "alice" "correct" Samples.referred).1 in
  try_login Cases.ext_login_expired "bob" "wrong" s' = (s', Return tt)
  ∧ login s' = (s', Return (Some "/upcoming_classes"))
  ∧ get_user Cases.ext_login_expired s' = (s', Return (PUser Samples.alice)).
Proof.
  apply (try_login_twice Samples.ext Cases.ext_login_expired Samples.referred
           "alice" "correct" "bob" "wrong" Samples.alice); reflexivity.
Defined.

Lemma get_otf_never_returns_None_witness :
  let s := run Samples.ext (ClickLogIn "alice" "correct") Samples.empty in
  let s' := (get_otf Samples.ext s).1 in
  ∃ otf, POtf (Samples.session Samples.alice) = POtf otf
         ∧ tab_storage s' !! "otf" = Some (POtf otf).
Proof.
  apply (get_otf_never_returns_None Samples.ext
           (run Samples.ext (ClickLogIn "alice" "correct") Samples.empty)).
  - apply reachable_step, reachable_fresh. split; reflexivity.
  - vm_compute. reflexivity.
Defined.

Lemma plain_device_key_witness :
  within_json_limits "device-1"
  ∧ json_loads "device-1" = None
  ∧ (LocalStorage.get_item "device_key"
       (add_user_to_storage Samples.ext Samples.alice Samples.empty).1).2
      = Return (JStr "device-1")
  ∧ (LocalStorage.get_item "device_key"
       (add_otf_to_storage Samples.ext (Samples.session Samples.alice) Samples.empty).1).2
      = Return (JStr "device-1").
Proof.
  split; [reflexivity|]. split; [reflexivity|].
  apply (plain_device_key_is_read_back Samples.ext Samples.empty Samples.alice
           (Samples.session Samples.alice) "device-1"); reflexivity.
Defined.

Lemma numeric_device_key_witness :
  within_json_limits (Z_to_string 12345)
  ∧ device_key Cases.numeric_user = JStr (Z_to_string 12345)
  ∧ (LocalStorage.get_item "device_key"
       (add_user_to_storage Samples.ext Cases.numeric_user Samples.empty).1).2
      = Return (JInt 12345)
  ∧ (LocalStorage.get_item "device_key"
       (add_otf_to_storage Samples.ext (Samples.session Cases.numeric_user)
          Samples.empty).1).2
      = Return (JInt 12345).
Proof.
  split; [reflexivity|]. split; [reflexivity|].
  apply (numeric_device_key_is_read_back_as_number Samples.ext Samples.empty
           Cases.numeric_user (Samples.session Cases.numeric_user) 12345%Z); reflexivity.
Defined.

Lemma get_user_returns_cached_user_witness :
  let s' := (get_user Samples.ext_valid_tokens Samples.tokens_only).1 in
  let v := PUser {| get_tokens := get_tokens Samples.alice; device_key := JNull |} in
  tab_storage s' !! "user" = Some v
  ∧ get_user Samples.ext s' = (s', Return v).
Proof.
  apply (get_user_returns_cached_user Samples.ext_valid_tokens Samples.ext
           Samples.tokens_only).
  vm_compute. reflexivity.
Defined.
